(** * Ali-Flux MCP server: job submission, status query and artifact retrieval

    A shallow embedding of the server's tools: the argument validators,
    [generateImage], [checkTaskStatus] and [downloadImage], together with the
    parts of the Node.js runtime they call.  The repository holds two
    variants of the server.  The main development follows the one with
    [WORK_DIR] and [base_dir]; the earlier one, [src/index.ts], shares
    everything but the validation of [save_path] and the last step of
    [downloadImage], which are in [SrcIndex] with the two tools that call
    that validation.

    The runtime is not code of the repository; it is modelled as follows.

    - [path] is the POSIX flavour of Node's [path] module ([path.sep] is
      the slash), written after [lib/path.js]: [isAbsolute], [normalize],
      [join], [dirname] and [parse], loops and sentinels included.
    - [fs], [axios], [Math.random] and [JSON.stringify] are an interface
      ([Host]): every theorem holds for every implementation of it.
    - A JavaScript exception is the [Throw] result of the monad [M]; the
      calls made to the outside world are recorded in a trace of [event]s. *)

From Stdlib Require Import Bool Ascii String List ZArith Lia.
From Stdlib Require Import DecimalString DecimalNat FinFun.
Import ListNotations.
Open Scope string_scope.
Open Scope Z_scope.

(** ** JavaScript strings *)

Module JsString.

(** [s.length] *)
Definition len (s : string) : Z := Z.of_nat (String.length s).

(** [s.charCodeAt(i)]; [None] stands for [NaN] (index out of range). *)
Definition charCodeAt (s : string) (i : Z) : option ascii :=
  if i <? 0 then None else String.get (Z.to_nat i) s.

Definition code_is (c : option ascii) (a : ascii) : bool :=
  match c with
  | Some x => Ascii.eqb x a
  | None => false
  end.

(** [s.slice(a, b)] for [0 <= a]; an empty string when [b <= a]. *)
Definition slice (s : string) (a b : Z) : string :=
  String.substring (Z.to_nat a) (Z.to_nat (b - a)) s.

(** [s.lastIndexOf(c)] for a one-character needle; [-1] when absent. *)
Fixpoint lastIndexOf_from (s : string) (c : ascii) (i : Z) (found : Z) : Z :=
  match s with
  | EmptyString => found
  | String x s' =>
      lastIndexOf_from s' c (i + 1) (if Ascii.eqb x c then i else found)
  end.

Definition lastIndexOf (s : string) (c : ascii) : Z :=
  lastIndexOf_from s c 0 (-1).

(** [s.includes(sub)] *)
Definition includes (s sub : string) : bool :=
  match String.index 0 sub s with
  | Some _ => true
  | None => false
  end.

(** The one-character string holding a double quote. *)
Definition dquote : string := String (Ascii.ascii_of_nat 34) EmptyString.

(** [String(i)] for a loop counter: its decimal digits. *)
Definition of_nat (i : nat) : string :=
  NilEmpty.string_of_uint (Nat.to_uint i).

End JsString.

(** ** Node's [path] module, POSIX flavour *)

Module path.
Import JsString.

Definition CHAR_FORWARD_SLASH : ascii := "/"%char.
Definition CHAR_DOT : ascii := "."%char.

Definition sep : string := "/".

Definition isPosixPathSeparator (c : option ascii) : bool :=
  code_is c CHAR_FORWARD_SLASH.

(** [path.isAbsolute]: non-empty and starting with a slash. *)
Definition isAbsolute (p : string) : bool :=
  (0 <? len p) && code_is (charCodeAt p 0) CHAR_FORWARD_SLASH.

(** The local variables of [normalizeString]. *)
Record NormState := mkNorm {
  res : string;
  lastSegmentLength : Z;
  lastSlash : Z;
  dots : Z;
}.

(** One iteration of the loop of [normalizeString] at index [i], the
    character read being [code]. *)
Definition normalizeStep (p : string) (allowAboveRoot : bool)
    (i : Z) (code : option ascii) (st : NormState) : NormState :=
  if isPosixPathSeparator code then
    if (lastSlash st =? i - 1) || (dots st =? 1) then
      mkNorm (res st) (lastSegmentLength st) i 0
    else if dots st =? 2 then
      let r := res st in
      if (len r <? 2) || negb (lastSegmentLength st =? 2)
         || negb (code_is (charCodeAt r (len r - 1)) CHAR_DOT)
         || negb (code_is (charCodeAt r (len r - 2)) CHAR_DOT)
      then
        if 2 <? len r then
          let lastSlashIndex := lastIndexOf r CHAR_FORWARD_SLASH in
          if lastSlashIndex =? -1 then mkNorm "" 0 i 0
          else
            let r' := slice r 0 lastSlashIndex in
            mkNorm r' (len r' - 1 - lastIndexOf r' CHAR_FORWARD_SLASH) i 0
        else if negb (len r =? 0) then mkNorm "" 0 i 0
        else if allowAboveRoot then mkNorm ".." 2 i 0
        else mkNorm r (lastSegmentLength st) i 0
      else if allowAboveRoot then
        mkNorm (r ++ (if 0 <? len r then "/.." else "..")) 2 i 0
      else mkNorm r (lastSegmentLength st) i 0
    else
      let seg := slice p (lastSlash st + 1) i in
      mkNorm (if 0 <? len (res st) then res st ++ "/" ++ seg else seg)
             (i - lastSlash st - 1) i 0
  else if code_is code CHAR_DOT && negb (dots st =? -1) then
    mkNorm (res st) (lastSegmentLength st) (lastSlash st) (dots st + 1)
  else
    mkNorm (res st) (lastSegmentLength st) (lastSlash st) (-1).

(** The loop [for (i = 0; i <= path.length; ++i)]: [rest] is what is
    left of the path at index [i] and [code] the character of the previous
    iteration.  Past the end a slash is supplied, unless the path ended
    with one. *)
Fixpoint normalizeLoop (p : string) (allowAboveRoot : bool)
    (rest : string) (i : Z) (code : option ascii) (st : NormState)
    : string :=
  match rest with
  | String c rest' =>
      normalizeLoop p allowAboveRoot rest' (i + 1) (Some c)
        (normalizeStep p allowAboveRoot i (Some c) st)
  | EmptyString =>
      if isPosixPathSeparator code then res st
      else res (normalizeStep p allowAboveRoot i
                  (Some CHAR_FORWARD_SLASH) st)
  end.

Definition normalizeString (p : string) (allowAboveRoot : bool) : string :=
  normalizeLoop p allowAboveRoot p 0 None (mkNorm "" 0 (-1) 0).

(** [path.normalize] *)
Definition normalize (p : string) : string :=
  if len p =? 0 then "."
  else
    let isAbs := code_is (charCodeAt p 0) CHAR_FORWARD_SLASH in
    let trailingSeparator :=
      code_is (charCodeAt p (len p - 1)) CHAR_FORWARD_SLASH in
    let q := normalizeString p (negb isAbs) in
    if len q =? 0 then
      if isAbs then "/" else if trailingSeparator then "./" else "."
    else
      let q' := if trailingSeparator then q ++ "/" else q in
      if isAbs then "/" ++ q' else q'.

(** [path.join(a, b)]: the non-empty arguments, joined by a slash and
    normalised. *)
Definition join (a b : string) : string :=
  let joined :=
    if 0 <? len a then
      if 0 <? len b then Some (a ++ "/" ++ b) else Some a
    else if 0 <? len b then Some b else None in
  match joined with
  | None => "."
  | Some j => normalize j
  end.

(** The loop [for (i = path.length - 1; i >= 1; --i)] of [path.dirname];
    it yields [end]. *)
Fixpoint dirnameLoop (p : string) (fuel : nat) (i : Z)
    (matchedSlash : bool) : Z :=
  match fuel with
  | O => -1
  | S fuel' =>
      if code_is (charCodeAt p i) CHAR_FORWARD_SLASH then
        if negb matchedSlash then i
        else dirnameLoop p fuel' (i - 1) matchedSlash
      else dirnameLoop p fuel' (i - 1) false
  end.

(** [path.dirname] *)
Definition dirname (p : string) : string :=
  if len p =? 0 then "."
  else
    let hasRoot := code_is (charCodeAt p 0) CHAR_FORWARD_SLASH in
    let e := dirnameLoop p (Z.to_nat (len p - 1)) (len p - 1) true in
    if e =? -1 then (if hasRoot then "/" else ".")
    else if hasRoot && (e =? 1) then "//"
    else slice p 0 e.

(** The object returned by [path.parse]. *)
Record ParsedPath := mkParsed {
  root : string;
  dir : string;
  base : string;
  ext : string;
  name : string;
}.

(** The local variables of the loop of [path.parse]. *)
Record ParseState := mkPS {
  startDot : Z;
  startPart : Z;
  end_ : Z;
  matchedSlash : bool;
  preDotState : Z;
}.

(** The loop [for (; i >= start; --i)] of [path.parse]. *)
Fixpoint parseLoop (p : string) (fuel : nat) (i : Z) (st : ParseState)
    : ParseState :=
  match fuel with
  | O => st
  | S fuel' =>
      let code := charCodeAt p i in
      if code_is code CHAR_FORWARD_SLASH then
        if negb (matchedSlash st) then
          mkPS (startDot st) (i + 1) (end_ st) (matchedSlash st)
               (preDotState st)
        else parseLoop p fuel' (i - 1) st
      else
        let st1 :=
          if end_ st =? -1 then
            mkPS (startDot st) (startPart st) (i + 1) false (preDotState st)
          else st in
        let st2 :=
          if code_is code CHAR_DOT then
            if startDot st1 =? -1 then
              mkPS i (startPart st1) (end_ st1) (matchedSlash st1)
                   (preDotState st1)
            else if negb (preDotState st1 =? 1) then
              mkPS (startDot st1) (startPart st1) (end_ st1)
                   (matchedSlash st1) 1
            else st1
          else if negb (startDot st1 =? -1) then
            mkPS (startDot st1) (startPart st1) (end_ st1)
                 (matchedSlash st1) (-1)
          else st1 in
        parseLoop p fuel' (i - 1) st2
  end.

(** [path.parse] *)
Definition parse (p : string) : ParsedPath :=
  if len p =? 0 then mkParsed "" "" "" "" ""
  else
    let isAbs := code_is (charCodeAt p 0) CHAR_FORWARD_SLASH in
    let start := if isAbs then 1 else 0 in
    let root_ := if isAbs then "/" else "" in
    let st := parseLoop p (Z.to_nat (len p - start)) (len p - 1)
                (mkPS (-1) 0 (-1) true 0) in
    let dir_ :=
      if 0 <? startPart st then slice p 0 (startPart st - 1)
      else if isAbs then "/" else "" in
    if negb (end_ st =? -1) then
      let start' :=
        if (startPart st =? 0) && isAbs then 1 else startPart st in
      if (startDot st =? -1) || (preDotState st =? 0)
         || ((preDotState st =? 1) && (startDot st =? end_ st - 1)
             && (startDot st =? startPart st + 1))
      then
        let b := slice p start' (end_ st) in
        mkParsed root_ dir_ b "" b
      else
        mkParsed root_ dir_ (slice p start' (end_ st))
                 (slice p (startDot st) (end_ st))
                 (slice p start' (startDot st))
    else mkParsed root_ dir_ "" "" "".

End path.

(** ** JavaScript values *)

(** A [number]: an IEEE double, finite ones as a dyadic [m * 2^e]. *)
Inductive number : Type :=
| NaN
| Infinity (negative : bool)
| Dyadic (m e : Z).

Definition num_of_Z (z : Z) : number := Dyadic z 0.

#[local] Set Warnings "-register-all".

(** What [JSON.parse] produces, and [undefined]. *)
Inductive jsval : Type :=
| JUndefined
| JNull
| JBool (b : bool)
| JNum (n : number)
| JStr (s : string)
| JArr (items : list jsval)
| JObj (fields : list (string * jsval)).

Definition typeof (v : jsval) : string :=
  match v with
  | JUndefined => "undefined"
  | JNull => "object"
  | JBool _ => "boolean"
  | JNum _ => "number"
  | JStr _ => "string"
  | JArr _ => "object"
  | JObj _ => "object"
  end.

Definition is_undefined (v : jsval) : bool :=
  match v with JUndefined => true | _ => false end.

Definition is_null (v : jsval) : bool :=
  match v with JNull => true | _ => false end.

(** [v === "s"] *)
Definition is_string (v : jsval) (s : string) : bool :=
  match v with JStr x => String.eqb x s | _ => false end.

(** ToBoolean *)
Definition truthy (v : jsval) : bool :=
  match v with
  | JUndefined | JNull => false
  | JBool b => b
  | JNum NaN => false
  | JNum (Infinity _) => true
  | JNum (Dyadic m _) => negb (m =? 0)
  | JStr s => negb (String.eqb s "")
  | JArr _ | JObj _ => true
  end.

(** [a || b] *)
Definition js_or (a b : jsval) : jsval := if truthy a then a else b.

Fixpoint lookup (k : string) (fields : list (string * jsval)) : jsval :=
  match fields with
  | [] => JUndefined
  | (k', v) :: rest => if String.eqb k k' then v else lookup k rest
  end.

(** [v.k] where [v] is neither [undefined] nor [null], for a key [k] that
    is no built-in property of arrays, strings, numbers or booleans (the
    program reads [prompt], [size], [seed], [steps], [task_id], [save_path],
    [base_dir], [output], [task_status], [results] and [url]). *)
Definition field (v : jsval) (k : string) : jsval :=
  match v with
  | JObj fields => lookup k fields
  | _ => JUndefined
  end.

(** The string behind a value that a type guard has narrowed to [string]. *)
Definition str_of (v : jsval) : string :=
  match v with JStr s => s | _ => "" end.

(** ** Exceptions *)

Inductive ErrorCode : Type := InvalidParams | MethodNotFound.

Inductive exn : Type :=
| McpError (code : ErrorCode) (message : string)
| AxiosError (response_data : jsval) (message : string)
| TypeError (message : string)
| SystemError (message : string).

(** [axios.isAxiosError] *)
Definition isAxiosError (e : exn) : bool :=
  match e with AxiosError _ _ => true | _ => false end.

(** [error.response?.data] *)
Definition response_data_of (e : exn) : jsval :=
  match e with AxiosError data _ => data | _ => JUndefined end.

(** [err.message] *)
Definition message_of (e : exn) : string :=
  match e with
  | McpError _ m | AxiosError _ m | TypeError m | SystemError m => m
  end.

(** ** The host: network, random numbers, file system, JSON printer *)

Definition bytes := string.

Class Host (N F : Type) : Type := {
  (** [apiClient.get(url)]: [response.data], or the error thrown *)
  apiClient_get : N -> string -> (jsval + exn) * N;
  (** [apiClient.post(url, body)] *)
  apiClient_post : N -> string -> jsval -> (jsval + exn) * N;
  (** [axios.get(url, { responseType: "arraybuffer" })] *)
  axios_get : N -> jsval -> (bytes + exn) * N;
  (** [Math.random()]: the numerator [k] of the double [k / 2^53] *)
  Math_random : N -> Z * N;
  (** [fs.existsSync(p)] *)
  fs_existsSync : F -> string -> bool;
  (** [fs.mkdirSync(p, { recursive: true })]: the new file system, or the
      message of the system error thrown *)
  fs_mkdirSync : F -> string -> F + string;
  (** [fs.promises.writeFile(p, data)] *)
  fs_writeFile : F -> string -> bytes -> F + string;
  (** [JSON.stringify(v)] and [JSON.stringify(v, null, 2)] *)
  JSON_stringify : jsval -> string;
  JSON_stringify2 : jsval -> string;
}.

(** The constants read from the environment when the process starts. *)
Record Config : Type := mkConfig {
  API_KEY : string;
  SAVE_DIR : string;
  MODEL_NAME : string;
  WORK_DIR : string;
}.

(** What a run does to the outside world, in order. *)
Inductive event : Type :=
| EvApiGet (url : string)
| EvApiPost (url : string) (body : jsval)
| EvAxiosGet (url : jsval)
| EvConsoleError (msg : string)
| EvExistsSync (p : string) (found : bool)
| EvMkdirSync (p : string) (ok : bool)
| EvWriteFile (p : string) (data : bytes) (ok : bool).

Definition is_artifact_fetch (e : event) : bool :=
  match e with EvAxiosGet _ => true | _ => false end.

(** The value a tool returns: [{ content: [{ type: "text", text }], isError }];
    an absent [isError] is [false]. *)
Record ToolResult : Type := mkResult {
  text : string;
  isError : bool;
}.

(** ** [Math.floor(Math.random() * 1000)] in double arithmetic *)

Module Double.

(** [m / 2^s] rounded to the nearest integer, ties to even. *)
Definition round_half_even (m s : Z) : Z :=
  let q := m / 2 ^ s in
  let r := m mod 2 ^ s in
  let h := 2 ^ (s - 1) in
  if r <? h then q
  else if h <? r then q + 1
  else if Z.even q then q else q + 1.

(** The double [fl(n / 2^53)] for [0 <= n], as mantissa and exponent: exact
    when [n] fits the 53 bits of the significand, rounded otherwise. *)
Definition fl (n : Z) : Z * Z :=
  let bits := if n =? 0 then 0 else Z.log2 n + 1 in
  if bits <=? 53 then (n, -53)
  else let s := bits - 53 in (round_half_even n s, s - 53).

(** [Math.floor] of a non-negative double [m * 2^e]. *)
Definition floor (d : Z * Z) : Z :=
  let (m, e) := d in
  if 0 <=? e then m * 2 ^ e else m / 2 ^ (- e).

(** [Math.floor(r * 1000)] where [r] is the double [k / 2^53]. *)
Definition floor_random_times_1000 (k : Z) : Z := floor (fl (1000 * k)).

End Double.

(** ** The server *)

Section Server.

Context {N F : Type} {host : Host N F}.
Variable cfg : Config.

(** *** Runs: state, exceptions and trace *)

Record St : Type := mkSt {
  net : N;
  fs : F;
  trace : list event;
}.

Inductive res (A : Type) : Type :=
| Ret (a : A)
| Throw (e : exn).
Arguments Ret {A} a.
Arguments Throw {A} e.

Definition M (A : Type) : Type := St -> res A * St.

Definition ret {A} (a : A) : M A := fun s => (Ret a, s).

Definition throw {A} (e : exn) : M A := fun s => (Throw e, s).

Definition bind {A B} (m : M A) (k : A -> M B) : M B :=
  fun s =>
    match m s with
    | (Ret a, s') => k a s'
    | (Throw e, s') => (Throw e, s')
    end.

(** [try { m } catch (e) { handler(e) }] *)
Definition try_catch {A} (m : M A) (handler : exn -> M A) : M A :=
  fun s =>
    match m s with
    | (Ret a, s') => (Ret a, s')
    | (Throw e, s') => handler e s'
    end.

Notation "x <- m ;; k" := (bind m (fun x => k))
  (at level 61, m at next level, right associativity).
Notation "m ;;; k" := (bind m (fun _ => k))
  (at level 61, right associativity).

Definition emit (e : event) (s : St) : St :=
  mkSt (net s) (fs s) (trace s ++ [e]).

(** The calls to the host, each leaving its event in the trace. *)

Definition do_apiClient_get (url : string) : M jsval :=
  fun s =>
    let (r, n') := apiClient_get (net s) url in
    let s' := mkSt n' (fs s) (trace s ++ [EvApiGet url]) in
    match r with
    | inl data => (Ret data, s')
    | inr e => (Throw e, s')
    end.

Definition do_apiClient_post (url : string) (body : jsval) : M jsval :=
  fun s =>
    let (r, n') := apiClient_post (net s) url body in
    let s' := mkSt n' (fs s) (trace s ++ [EvApiPost url body]) in
    match r with
    | inl data => (Ret data, s')
    | inr e => (Throw e, s')
    end.

Definition do_axios_get (url : jsval) : M bytes :=
  fun s =>
    let (r, n') := axios_get (net s) url in
    let s' := mkSt n' (fs s) (trace s ++ [EvAxiosGet url]) in
    match r with
    | inl data => (Ret data, s')
    | inr e => (Throw e, s')
    end.

Definition do_Math_random : M Z :=
  fun s =>
    let (k, n') := Math_random (net s) in
    (Ret k, mkSt n' (fs s) (trace s)).

Definition console_error (msg : string) : M unit :=
  fun s => (Ret tt, emit (EvConsoleError msg) s).

Definition do_existsSync (p : string) : M bool :=
  fun s =>
    let b := fs_existsSync (fs s) p in
    (Ret b, emit (EvExistsSync p b) s).

Definition do_mkdirSync (p : string) : M unit :=
  fun s =>
    match fs_mkdirSync (fs s) p with
    | inl f' => (Ret tt, mkSt (net s) f' (trace s ++ [EvMkdirSync p true]))
    | inr msg => (Throw (SystemError msg), emit (EvMkdirSync p false) s)
    end.

Definition do_writeFile (p : string) (data : bytes) : M unit :=
  fun s =>
    match fs_writeFile (fs s) p data with
    | inl f' =>
        (Ret tt, mkSt (net s) f' (trace s ++ [EvWriteFile p data true]))
    | inr msg =>
        (Throw (SystemError msg), emit (EvWriteFile p data false) s)
    end.

(** [v.k], which throws on [undefined] and [null]. *)
Definition getp (v : jsval) (k : string) : M jsval :=
  match v with
  | JUndefined | JNull =>
      throw (TypeError ("Cannot read properties of " ++
                        (if is_null v then "null" else "undefined") ++
                        " (reading '" ++ k ++ "')"))
  | _ => ret (field v k)
  end.

Fixpoint mapM {A B} (f : A -> M B) (l : list A) : M (list B) :=
  match l with
  | [] => ret []
  | x :: rest => y <- f x ;; ys <- mapM f rest ;; ret (y :: ys)
  end.

(** [statusData.output.results.map(f)], the one [map] of the server, on the
    value [v] of [results]: only an array has a [map] to call. *)
Definition array_map (v : jsval) (f : jsval -> M jsval) : M (list jsval) :=
  match v with
  | JArr items => mapM f items
  | JUndefined | JNull =>
      throw (TypeError ("Cannot read properties of " ++
                        (if is_null v then "null" else "undefined") ++
                        " (reading 'map')"))
  | _ => throw (TypeError "statusData.output.results.map is not a function")
  end.

(** *** Tool argument validation functions *)

Definition isValidGenerateImageArgs (args : jsval) : bool :=
  String.eqb (typeof args) "object"
  && negb (is_null args)
  && String.eqb (typeof (field args "prompt")) "string"
  && (is_undefined (field args "size")
      || String.eqb (typeof (field args "size")) "string")
  && (is_undefined (field args "seed")
      || String.eqb (typeof (field args "seed")) "number")
  && (is_undefined (field args "steps")
      || String.eqb (typeof (field args "steps")) "number").

Definition isValidTaskIdArgs (args : jsval) : bool :=
  String.eqb (typeof args) "object"
  && negb (is_null args)
  && String.eqb (typeof (field args "task_id")) "string"
  && (is_undefined (field args "save_path")
      || (String.eqb (typeof (field args "save_path")) "string"
          && (path.isAbsolute (str_of (field args "save_path"))
              || is_string (field args "save_path") "")))
  && (is_undefined (field args "base_dir")
      || String.eqb (typeof (field args "base_dir")) "string").

(** The handler shared by the three tools:
    [catch (error) { if (axios.isAxiosError(error)) return ...; throw error }] *)
Definition api_error_handler (error : exn) : M ToolResult :=
  if isAxiosError error then
    let data := response_data_of error in
    let s := if is_undefined data then "" else JSON_stringify data in
    ret (mkResult ("API request error: " ++
                   (if String.eqb s "" then message_of error else s)) true)
  else throw error.

(** *** Generate image *)

Definition generateImage (args : jsval) : M ToolResult :=
  if negb (isValidGenerateImageArgs args) then
    throw (McpError InvalidParams "Invalid image generation parameters")
  else
    try_catch
      (seed <- (if negb (is_undefined (field args "seed"))
                then ret (field args "seed")
                else k <- do_Math_random ;;
                     ret (JNum (num_of_Z
                                  (Double.floor_random_times_1000 k)))) ;;
       response <- do_apiClient_post
         "/services/aigc/text2image/image-synthesis"
         (JObj [("model", JStr (MODEL_NAME cfg));
                ("input", JObj [("prompt", field args "prompt")]);
                ("parameters",
                 JObj [("size", js_or (field args "size")
                                      (JStr "1024*1024"));
                       ("seed", seed);
                       ("steps", js_or (field args "steps")
                                       (JNum (num_of_Z 4)))])]) ;;
       ret (mkResult (JSON_stringify2 response) false))
      api_error_handler.

(** *** Check task status *)

Definition checkTaskStatus (args : jsval) : M ToolResult :=
  if negb (isValidTaskIdArgs args) then
    throw (McpError InvalidParams "Invalid task ID parameter")
  else
    try_catch
      (response <- do_apiClient_get
                     ("/tasks/" ++ str_of (field args "task_id")) ;;
       ret (mkResult (JSON_stringify2 response) false))
      api_error_handler.

(** *** Download image and save locally *)

(** [typedArgs.base_dir || WORK_DIR] *)
Definition baseDir_of (args : jsval) : string :=
  str_of (js_or (field args "base_dir") (JStr (WORK_DIR cfg))).

(** The [if (customSavePath) ... else ...] block: an early return, or
    [targetDir] and [customFilename] ([None] is [null]). *)
Definition resolveTarget (args : jsval)
    : ToolResult + (string * option string) :=
  let customSavePath := field args "save_path" in
  if truthy customSavePath then
    let customSavePath := str_of customSavePath in
    if negb (path.isAbsolute customSavePath) then
      inl (mkResult
             ("Invalid save_path: " ++ JsString.dquote ++ customSavePath ++
              JsString.dquote ++
              ". Must be an absolute path (e.g. /Users/username/Downloads/image.jpg)")
             true)
    else
      let parsedPath := path.parse customSavePath in
      let hasExtension :=
        negb (String.eqb (path.ext parsedPath) "")
        && negb (String.eqb (path.base parsedPath) (path.dir parsedPath)) in
      if hasExtension then
        let targetDir :=
          if negb (JsString.includes customSavePath path.sep)
             && negb (JsString.includes customSavePath "/")
          then ""
          else path.dirname customSavePath in
        inr (targetDir, Some (path.base parsedPath))
      else inr (customSavePath, None)
  else inr (SAVE_DIR cfg, None).

(** [path.isAbsolute(targetDir) ? targetDir : path.join(baseDir, targetDir)] *)
Definition absoluteTargetDir_of (baseDir targetDir : string) : string :=
  if path.isAbsolute targetDir then targetDir
  else path.join baseDir targetDir.

(** The inner [try { ... } catch (err) { return ... }]: an early return, or
    the new [targetDir]. *)
Definition ensureTargetDir (baseDir targetDir : string)
    : M (ToolResult + string) :=
  try_catch
    (let absoluteTargetDir := absoluteTargetDir_of baseDir targetDir in
     console_error
       ("Resolving path: " ++
        (if String.eqb targetDir "" then "(empty)" else targetDir) ++
        " against base: " ++ baseDir ++ " => " ++ absoluteTargetDir) ;;;
     found <- do_existsSync absoluteTargetDir ;;
     (if negb found then do_mkdirSync absoluteTargetDir else ret tt) ;;;
     ret (inr absoluteTargetDir))
    (fun err =>
       ret (inl (mkResult ("Failed to create directory: " ++ message_of err)
                          true))).

(** [i === 0 && customFilename ? customFilename : `${task_id}_${i}.png`] *)
Definition filename_of (task_id : string) (customFilename : option string)
    (i : nat) : string :=
  match customFilename with
  | Some f =>
      if Nat.eqb i 0 && negb (String.eqb f "") then f
      else task_id ++ "_" ++ JsString.of_nat i ++ ".png"
  | None => task_id ++ "_" ++ JsString.of_nat i ++ ".png"
  end.

(** The [for] loop over [imageUrls], from index [i] on. *)
Fixpoint downloadLoop (task_id targetDir : string)
    (customFilename : option string) (imageUrls : list jsval) (i : nat)
    (downloadResults : list jsval) : M (list jsval) :=
  match imageUrls with
  | [] => ret downloadResults
  | url :: rest =>
      let filename := filename_of task_id customFilename i in
      let savePath := path.join targetDir filename in
      data <- do_axios_get url ;;
      do_writeFile savePath data ;;;
      downloadLoop task_id targetDir customFilename rest (S i)
        (downloadResults ++
         [JObj [("url", url); ("saved_to", JStr savePath)]])
  end.

(** Steps 1 to 3 of [downloadImage]: check the task status and get the
    image URLs; an early return, or [imageUrls]. *)
Definition fetchImageUrls (task_id : string)
    : M (ToolResult + list jsval) :=
  statusData <- do_apiClient_get ("/tasks/" ++ task_id) ;;
  output <- getp statusData "output" ;;
  task_status <- getp output "task_status" ;;
  if negb (is_string task_status "SUCCEEDED") then
    ret (inl (mkResult ("Task not completed or failed: " ++
                        JSON_stringify2 statusData) true))
  else
    output <- getp statusData "output" ;;
    results <- getp output "results" ;;
    imageUrls <- array_map results (fun result => getp result "url") ;;
    if Nat.eqb (List.length imageUrls) 0 then
      ret (inl (mkResult "No image URL found" true))
    else ret (inr imageUrls).

(** The [for] loop of step 4 and the final [return]. *)
Definition downloadAll (task_id targetDir : string)
    (customFilename : option string) (imageUrls : list jsval)
    : M ToolResult :=
  downloadResults <-
    downloadLoop task_id targetDir customFilename imageUrls 0 [] ;;
  ret (mkResult
         (JSON_stringify2
            (JObj [("message", JStr "Image download completed");
                   ("task_id", JStr task_id);
                   ("downloads", JArr downloadResults)]))
         false).

(** Step 4 of [downloadImage]: download all images. *)
Definition saveImages (args : jsval) (imageUrls : list jsval)
    : M ToolResult :=
  match resolveTarget args with
  | inl early => ret early
  | inr (targetDir, customFilename) =>
      r <- ensureTargetDir (baseDir_of args) targetDir ;;
      match r with
      | inl early => ret early
      | inr targetDir =>
          downloadAll (str_of (field args "task_id")) targetDir
                      customFilename imageUrls
      end
  end.

Definition downloadImage (args : jsval) : M ToolResult :=
  if negb (isValidTaskIdArgs args) then
    throw (McpError InvalidParams "Invalid task ID parameter")
  else
    try_catch
      (r <- fetchImageUrls (str_of (field args "task_id")) ;;
       match r with
       | inl early => ret early
       | inr imageUrls => saveImages args imageUrls
       end)
      api_error_handler.

(** A run from a fresh trace. *)
Definition run {A} (m : M A) (n : N) (f : F) : res A * St :=
  m (mkSt n f []).

End Server.

Arguments Ret {A} a.
Arguments Throw {A} e.
Arguments St : clear implicits.
Arguments M : clear implicits.

(** ** The variant of [src/index.ts]

    The file [src/index.ts] holds an earlier variant of the server, without
    [WORK_DIR] and [base_dir].  Its [generateImage] and the steps 1 to 3 of
    its [downloadImage] are, word for word, the ones above; its validation of
    [save_path], which [checkTaskStatus] calls too, and its step 4 differ. *)

Module SrcIndex.
Section Server.

Context {N F : Type} {host : Host N F}.
Variable cfg : Config.

Definition isValidTaskIdArgs (args : jsval) : bool :=
  String.eqb (typeof args) "object"
  && negb (is_null args)
  && String.eqb (typeof (field args "task_id")) "string"
  && (is_undefined (field args "save_path")
      || String.eqb (typeof (field args "save_path")) "string").

Definition checkTaskStatus (args : jsval) : M N F ToolResult :=
  if negb (isValidTaskIdArgs args) then
    throw (McpError InvalidParams "Invalid task ID parameter")
  else
    try_catch
      (bind (do_apiClient_get ("/tasks/" ++ str_of (field args "task_id")))
            (fun response =>
               ret (mkResult (JSON_stringify2 response) false)))
      api_error_handler.

(** [customSavePath ? customSavePath : SAVE_DIR] *)
Definition targetDir_of (args : jsval) : string :=
  str_of (js_or (field args "save_path") (JStr (SAVE_DIR cfg))).

(** Step 4: the save directory is [save_path] as it is given, it is created
    inside the outer [try], and every file gets its default name. *)
Definition saveImages (args : jsval) (imageUrls : list jsval)
    : M N F ToolResult :=
  let targetDir := targetDir_of args in
  bind (do_existsSync targetDir) (fun found =>
  bind (if negb found then do_mkdirSync targetDir else ret tt) (fun _ =>
  downloadAll (str_of (field args "task_id")) targetDir None imageUrls)).

Definition downloadImage (args : jsval) : M N F ToolResult :=
  if negb (isValidTaskIdArgs args) then
    throw (McpError InvalidParams "Invalid task ID parameter")
  else
    try_catch
      (bind (fetchImageUrls (str_of (field args "task_id"))) (fun r =>
       match r with
       | inl early => ret early
       | inr imageUrls => saveImages args imageUrls
       end))
      api_error_handler.

End Server.
End SrcIndex.

(** ** A small concrete host, to run the tools on examples *)

Module Demo.

(** A file system: the entries, by path, and whether directories may be
    created. *)
Inductive node : Type := Dir | File (data : bytes).

Record FS : Type := mkFS {
  entries : list (string * node);
  may_mkdir : bool;
}.

Fixpoint find (p : string) (l : list (string * node)) : option node :=
  match l with
  | [] => None
  | (q, x) :: rest => if String.eqb p q then Some x else find p rest
  end.

Definition existsSync (f : FS) (p : string) : bool :=
  match find p (entries f) with Some _ => true | None => false end.

Definition mkdirSync (f : FS) (p : string) : FS + string :=
  if may_mkdir f then inl (mkFS ((p, Dir) :: entries f) (may_mkdir f))
  else inr ("EACCES: permission denied, mkdir '" ++ p ++ "'").

(** A file is written only into an existing directory; it replaces what
    was at its path. *)
Definition writeFile (f : FS) (p : string) (data : bytes) : FS + string :=
  match find (path.dirname p) (entries f) with
  | Some Dir =>
      inl (mkFS ((p, File data)
                 :: List.filter (fun e => negb (String.eqb p (fst e)))
                                (entries f))
                (may_mkdir f))
  | Some (File _) => inr ("ENOTDIR: not a directory, open '" ++ p ++ "'")
  | None => inr ("ENOENT: no such file or directory, open '" ++ p ++ "'")
  end.

(** The remote service: the body served for a task, the bytes behind
    every artifact URL and the next random numerator. *)
Record Net : Type := mkNet {
  status_body : jsval + exn;
  artifact : jsval -> bytes + exn;
  next_random : Z;
}.

(** A printer for the values the examples use: integers, strings, arrays
    and objects, without white space. *)
Fixpoint show (v : jsval) : string :=
  match v with
  | JUndefined => "undefined"
  | JNull => "null"
  | JBool true => "true"
  | JBool false => "false"
  | JNum (Dyadic (Z.neg p) 0) => "-" ++ JsString.of_nat (Pos.to_nat p)
  | JNum (Dyadic m 0) => JsString.of_nat (Z.to_nat m)
  | JNum _ => "null"
  | JStr s => JsString.dquote ++ s ++ JsString.dquote
  | JArr items =>
      "[" ++ String.concat "," (List.map show items) ++ "]"
  | JObj fields =>
      "{" ++ String.concat ","
               (List.map (fun kv => JsString.dquote ++ fst kv ++ JsString.dquote
                                    ++ ":" ++ show (snd kv))
                         fields) ++ "}"
  end.

#[export] Instance host : Host Net FS := {|
  apiClient_get n _ := (status_body n, n);
  apiClient_post n _ _ := (status_body n, n);
  axios_get n url := (artifact n url, n);
  Math_random n := (next_random n, n);
  fs_existsSync := existsSync;
  fs_mkdirSync := mkdirSync;
  fs_writeFile := writeFile;
  JSON_stringify := show;
  JSON_stringify2 := show;
|}.

Definition cfg : Config :=
  mkConfig "example-key" "/home/u/Desktop/flux-images" "flux-merged"
           "/home/u/work".

(** A status body with the given [task_status] and [results]. *)
Definition status (task_status : string) (urls : list string) : jsval :=
  JObj [("output",
         JObj [("task_status", JStr task_status);
               ("results",
                JArr (List.map (fun u => JObj [("url", JStr u)]) urls))])].

(** A remote service that serves [body] and the bytes ["PNG"]. *)
Definition serving (body : jsval) : Net :=
  mkNet (inl body) (fun _ => inl "PNG") 0.

(** An empty disk with [/tmp] and [/tmp/out]. *)
Definition disk : FS := mkFS [("/tmp", Dir); ("/tmp/out", Dir)] true.

End Demo.

(** ** Vocabulary of the properties *)



(** A computation without effects. *)
Definition pure_m {N F A} (m : M N F A) : Prop := forall s, snd (m s) = s.

(** An outcome, with [t] put before its trace. *)
Definition rebase {N F A} (t : list event) (out : res A * St N F)
    : res A * St N F :=
  (fst out, mkSt (net (snd out)) (fs (snd out)) (t ++ trace (snd out))).

(** A computation that only adds to the trace and never reads it. *)
Definition framed {N F A} (m : M N F A) : Prop :=
  forall n f t, m (mkSt n f t) = rebase t (m (mkSt n f [])).

(** A value whose properties can be read: neither [undefined] nor [null]. *)
Definition readable (v : jsval) : bool :=
  negb (is_undefined v) && negb (is_null v).

(** The URL of the status query for the task of a call. *)
Definition status_url (args : jsval) : string :=
  "/tasks/" ++ str_of (field args "task_id").

(** The line written to [stderr] by the directory step. *)
Definition resolving_message (baseDir targetDir : string) : string :=
  "Resolving path: " ++
  (if String.eqb targetDir "" then "(empty)" else targetDir) ++
  " against base: " ++ baseDir ++ " => " ++
  absoluteTargetDir_of baseDir targetDir.

(** The directory that a call resolves to, if it gets that far. *)
Definition resolvedDir (cfg : Config) (args : jsval) : option string :=
  match resolveTarget cfg args with
  | inl _ => None
  | inr (targetDir, _) =>
      Some (absoluteTargetDir_of (baseDir_of cfg args) targetDir)
  end.

(** The default name of artifact [i]: [`${task_id}_${i}.png`]. *)
Definition default_name (task_id : string) (i : nat) : string :=
  task_id ++ "_" ++ JsString.of_nat i ++ ".png".

(** The events of the download loop. *)
Definition loop_event (e : event) : bool :=
  match e with
  | EvAxiosGet _ | EvWriteFile _ _ _ => true
  | _ => false
  end.

(** The trace without the lines written to [stderr]. *)
Definition quiet (t : list event) : list event :=
  filter (fun e => match e with EvConsoleError _ => false | _ => true end) t.

(** The paths given to [fs.promises.writeFile], in order. *)
Definition write_paths (t : list event) : list string :=
  flat_map (fun e => match e with EvWriteFile p _ _ => [p] | _ => [] end) t.

(** What a run of [downloadImage] can leave in the trace: nothing (the call
    was rejected), the status query alone, the directory step ending in a
    failed [mkdirSync], or the directory step followed by the download
    loop. *)
Inductive run_shape {N F : Type} {host : Host N F} (cfg : Config)
    (args : jsval) (f : F) (out : res ToolResult * St N F) : Prop :=
| shape_rejected :
    trace (snd out) = [] -> fs (snd out) = f ->
    run_shape cfg args f out
| shape_status_only u :
    trace (snd out) = [EvApiGet u] -> fs (snd out) = f ->
    run_shape cfg args f out
| shape_mkdir_failed u td cf msg :
    resolveTarget cfg args = inr (td, cf) ->
    let d := absoluteTargetDir_of (baseDir_of cfg args) td in
    trace (snd out)
    = [EvApiGet u;
       EvConsoleError (resolving_message (baseDir_of cfg args) td);
       EvExistsSync d false; EvMkdirSync d false] ->
    fs (snd out) = f ->
    fs_existsSync f d = false ->
    fst out = Ret (mkResult ("Failed to create directory: " ++ msg) true) ->
    run_shape cfg args f out
| shape_downloading u td cf (t : list event) (found : bool) :
    resolveTarget cfg args = inr (td, cf) ->
    let d := absoluteTargetDir_of (baseDir_of cfg args) td in
    trace (snd out)
    = ([EvApiGet u;
        EvConsoleError (resolving_message (baseDir_of cfg args) td);
        EvExistsSync d found]
       ++ (if found then [] else [EvMkdirSync d true]) ++ t)%list ->
    fs_existsSync f d = found ->
    (exists imageUrls n1 f1,
       t = trace (snd (downloadAll (str_of (field args "task_id")) d cf
                                   imageUrls (mkSt n1 f1 [])))) ->
    run_shape cfg args f out.

(** ** Example calls *)

Module Examples.
Import Demo.

(** [download_image] with a file path, with a bare file name, with a task
    identifier that climbs out of the directory, with an override that is
    also a default name, with a directory to create, and with a path
    where a regular file lies. *)
Definition args_pic : jsval :=
  JObj [("task_id", JStr "t1"); ("save_path", JStr "/tmp/out/pic.png")].

Definition args_pic_other_base : jsval :=
  JObj [("task_id", JStr "t1"); ("save_path", JStr "/tmp/out/pic.png");
        ("base_dir", JStr "/srv/elsewhere")].

Definition args_pic_other_task : jsval :=
  JObj [("task_id", JStr "t2"); ("save_path", JStr "/tmp/out/pic.png");
        ("unused", JBool true)].

Definition args_bare : jsval :=
  JObj [("task_id", JStr "t1"); ("save_path", JStr "report.png");
        ("base_dir", JStr "/home/u/work")].


Definition args_clash : jsval :=
  JObj [("task_id", JStr "abc"); ("save_path", JStr "/tmp/abc_1.png")].

Definition args_new_dir : jsval :=
  JObj [("task_id", JStr "abc"); ("save_path", JStr "/tmp/new")].

Definition args_notes : jsval :=
  JObj [("task_id", JStr "abc"); ("save_path", JStr "/tmp/notes")].

(** [generate_image] with [steps: 0], and with a prompt only. *)
Definition gen_zero_steps : jsval :=
  JObj [("prompt", JStr "a cat"); ("seed", JNum (num_of_Z 7));
        ("steps", JNum (num_of_Z 0))].

Definition gen_prompt_only : jsval := JObj [("prompt", JStr "a cat")].

(** Remote services: a running task, a task with two images, one with no
    image, and one whose payload has no [results]. *)
Definition net_running : Net := serving (status "RUNNING" []).

Definition net_two : Net :=
  serving (status "SUCCEEDED" ["http://img/0"; "http://img/1"]).

Definition net_none : Net := serving (status "SUCCEEDED" []).

Definition status_without_results : jsval :=
  JObj [("output", JObj [("task_status", JStr "SUCCEEDED")])].

Definition net_without_results : Net := serving status_without_results.

(** A service whose next random numerator is the largest one. *)
Definition net_random_max : Net :=
  mkNet (inl (JObj [("request_id", JStr "r1")])) (fun _ => inl "PNG")
        (2 ^ 53 - 1).

(** A disk where nothing can be created, and one where [/tmp/notes] is a
    regular file. *)
Definition disk_readonly : FS := mkFS [("/tmp", Dir)] false.

Definition disk_with_file : FS :=
  mkFS [("/tmp", Dir); ("/tmp/notes", File "to do")] true.

End Examples.

(** ** The rest of the server: configuration, tool list and dispatch *)

(** [process.env.NAME || fallback]: a variable of the environment is a
    string or is not set. *)
Definition env_or (v : option string) (fallback : string) : string :=
  match v with
  | Some s => if String.eqb s "" then fallback else s
  | None => fallback
  end.

(** [path.join(...parts)] for any number of arguments. *)
Definition join_all (parts : list string) : string :=
  let joined :=
    fold_left
      (fun (joined : option string) (arg : string) =>
         if 0 <? JsString.len arg then
           match joined with
           | None => Some arg
           | Some j => Some (j ++ "/" ++ arg)
           end
         else joined)
      parts None in
  match joined with
  | None => "."
  | Some j => path.normalize j
  end.

(** The constants at the top of the file, from [process.env],
    [os.homedir()] and [process.cwd()]. *)
Definition loadConfig (env : string -> option string) (homedir cwd : string)
    : Config :=
  mkConfig
    (env_or (env "DASHSCOPE_API_KEY") "example-key")
    (env_or (env "SAVE_DIR") (join_all [homedir; "Desktop"; "flux-images"]))
    (env_or (env "MODEL_NAME") "flux-merged")
    (env_or (env "WORK_DIR") cwd).

(** The answer to [ListToolsRequestSchema]. *)
Definition listTools : jsval :=
  JObj [("tools", JArr [
    JObj [("name", JStr "generate_image");
          ("description",
           JStr "Generate images using Alibaba Cloud DashScope API");
          ("inputSchema", JObj [
             ("type", JStr "object");
             ("properties", JObj [
                ("prompt", JObj [("type", JStr "string");
                                 ("description",
                                  JStr "Image generation prompt")]);
                ("size", JObj [("type", JStr "string");
                               ("description",
                                JStr ("Image size, available options: " ++
                                      JsString.dquote ++ "1024*1024" ++
                                      JsString.dquote ++ ", " ++
                                      JsString.dquote ++ "720*1280" ++
                                      JsString.dquote ++ ", " ++
                                      JsString.dquote ++ "1280*720" ++
                                      JsString.dquote));
                               ("default", JStr "1024*1024")]);
                ("seed", JObj [("type", JStr "number");
                               ("description", JStr "Random seed")]);
                ("steps", JObj [("type", JStr "number");
                                ("description", JStr "Iteration steps")])]);
             ("required", JArr [JStr "prompt"])])];
    JObj [("name", JStr "check_task_status");
          ("description", JStr "Check image generation task status");
          ("inputSchema", JObj [
             ("type", JStr "object");
             ("properties", JObj [
                ("task_id", JObj [("type", JStr "string");
                                  ("description", JStr "Task ID")])]);
             ("required", JArr [JStr "task_id"])])];
    JObj [("name", JStr "download_image");
          ("description",
           JStr "Download generated images and save them locally");
          ("inputSchema", JObj [
             ("type", JStr "object");
             ("properties", JObj [
                ("task_id", JObj [("type", JStr "string");
                                  ("description", JStr "Task ID")]);
                ("save_path", JObj [
                   ("type", JStr "string");
                   ("description",
                    JStr "Absolute path where to save the file (e.g. /Users/username/Downloads/image.jpg). Must be an absolute path.")]);
                ("base_dir", JObj [
                   ("type", JStr "string");
                   ("description",
                    JStr "Base directory for resolving relative paths. Defaults to WORK_DIR environment variable or current working directory")])]);
             ("required", JArr [JStr "task_id"])])]])].

Section Dispatch.

Context {N F : Type} {host : Host N F}.
Variable cfg : Config.

(** The handler of [CallToolRequestSchema]: [switch (request.params.name)]. *)
Definition callTool (name : string) (args : jsval) : M N F ToolResult :=
  if String.eqb name "generate_image" then generateImage cfg args
  else if String.eqb name "check_task_status" then checkTaskStatus args
  else if String.eqb name "download_image" then downloadImage cfg args
  else throw (McpError MethodNotFound ("Unknown tool: " ++ name)).

End Dispatch.

(** ** More vocabulary *)

(** The items of an array. *)
Definition items_of (v : jsval) : list jsval :=
  match v with JArr l => l | _ => [] end.

(** The tools that [listTools] announces, their names, and the properties
    that the schema of a tool requires. *)
Definition listed_tools : list jsval := items_of (field listTools "tools").

Definition listed_names : list string :=
  map (fun t => str_of (field t "name")) listed_tools.

Definition required_of (name : string) : list string :=
  flat_map
    (fun t =>
       if String.eqb (str_of (field t "name")) name
       then map str_of (items_of (field (field t "inputSchema") "required"))
       else [])
    listed_tools.

(** The default that the schema of [generate_image] declares for [size]. *)
Definition declared_size_default : jsval :=
  field (field (field (field (nth 0 listed_tools JNull) "inputSchema")
                      "properties") "size") "default".

(** A request to the remote API. *)
Definition is_api_request (e : event) : bool :=
  match e with EvApiGet _ | EvApiPost _ _ => true | _ => false end.

(** The URLs of the artifacts fetched, in order. *)
Definition fetched_urls (t : list event) : list jsval :=
  flat_map (fun e => match e with EvAxiosGet u => [u] | _ => [] end) t.

(** No [mkdirSync] and no [writeFile] of the trace failed. *)
Definition no_fs_failure (t : list event) : bool :=
  forallb (fun e => match e with
                    | EvMkdirSync _ ok | EvWriteFile _ _ ok => ok
                    | _ => true
                    end) t.

(** The URLs that a status payload names: [result.url] of every item of
    [output.results]. *)
Definition named_urls (statusData : jsval) : list jsval :=
  map (fun result => field result "url")
      (items_of (field (field statusData "output") "results")).

(** The network and the file system once the artifacts [urls], the first
    of which has index [i], have each been fetched and written to
    [path.join] of [targetDir] and its file name; [None] when a fetch or a
    write fails on the way. *)
Fixpoint after_saving {N F : Type} {host : Host N F}
    (task_id targetDir : string) (customFilename : option string) (i : nat)
    (urls : list jsval) (n : N) (f : F) : option (N * F) :=
  match urls with
  | [] => Some (n, f)
  | url :: rest =>
      match axios_get n url with
      | (inl data, n1) =>
          match fs_writeFile f
                  (path.join targetDir (filename_of task_id customFilename i))
                  data with
          | inl f1 =>
              after_saving task_id targetDir customFilename (S i) rest n1 f1
          | inr _ => None
          end
      | (inr _, _) => None
      end
  end.

(** The file system once the directory [d] is there: as it was when
    [fs.existsSync] finds [d], after [fs.mkdirSync] otherwise; [None] when
    the directory cannot be created. *)
Definition with_directory {N F : Type} {host : Host N F} (f : F) (d : string)
    : option F :=
  if fs_existsSync f d then Some f
  else match fs_mkdirSync f d with
       | inl f' => Some f'
       | inr _ => None
       end.

(** The entry of [downloads] for artifact [i]. *)
Definition download_entry (task_id targetDir : string)
    (customFilename : option string) (i : nat) (url : jsval) : jsval :=
  JObj [("url", url);
        ("saved_to",
         JStr (path.join targetDir (filename_of task_id customFilename i)))].

(** The entries for the URLs [urls], the first of which has index [i]. *)
Fixpoint download_entries (task_id targetDir : string)
    (customFilename : option string) (i : nat) (urls : list jsval)
    : list jsval :=
  match urls with
  | [] => []
  | url :: rest =>
      download_entry task_id targetDir customFilename i url
      :: download_entries task_id targetDir customFilename (S i) rest
  end.

(** The text of the error-flagged result for an axios error. *)
Definition api_error_text {N F : Type} {host : Host N F} (e : exn) : string :=
  let data := response_data_of e in
  let s := if is_undefined data then "" else JSON_stringify data in
  "API request error: " ++ (if String.eqb s "" then message_of e else s).

(** Whether a [save_path] names a file: it has an extension, and its base
    name is not its directory. *)
Definition names_file (save_path : string) : bool :=
  let parsedPath := path.parse save_path in
  negb (String.eqb (path.ext parsedPath) "")
  && negb (String.eqb (path.base parsedPath) (path.dir parsedPath)).

(** More example calls. *)
Module Examples2.
Import Demo Examples.

Definition args_status : jsval := JObj [("task_id", JStr "t1")].

Definition args_status_relative : jsval :=
  JObj [("task_id", JStr "t1"); ("save_path", JStr "pictures")].

Definition args_empty_strings : jsval :=
  JObj [("task_id", JStr "t1"); ("save_path", JStr "");
        ("base_dir", JStr "")].

Definition args_pic_noise : jsval :=
  JObj [("verbose", JBool true); ("task_id", JStr "t1");
        ("save_path", JStr "/tmp/out/pic.png")].

Definition args_dir : jsval :=
  JObj [("task_id", JStr "t1"); ("save_path", JStr "/tmp/out")].

(** A service that refuses every request with a 401 body, one that is
    unreachable, and one whose client throws something else. *)
Definition net_unauthorized : Net :=
  mkNet (inr (AxiosError (JObj [("code", JStr "InvalidApiKey")])
                          "Request failed with status code 401"))
        (fun _ => inl "PNG") 0.

Definition net_unreachable : Net :=
  mkNet (inr (AxiosError JUndefined "connect ECONNREFUSED"))
        (fun _ => inl "PNG") 0.

Definition net_broken : Net :=
  mkNet (inr (TypeError "Invalid URL")) (fun _ => inl "PNG") 0.

(** A service whose second artifact, of three, cannot be fetched. *)
Definition net_second_missing : Net :=
  mkNet (inl (status "SUCCEEDED"
                     ["http://img/0"; "http://img/1"; "http://img/2"]))
        (fun u => if is_string u "http://img/1"
                  then inr (AxiosError JUndefined
                              "Request failed with status code 404")
                  else inl "PNG")
        0.

(** An environment with nothing set, and one that sets [SAVE_DIR]. *)
Definition env_empty : string -> option string := fun _ => None.

Definition env_save_dir : string -> option string :=
  fun k => if String.eqb k "SAVE_DIR" then Some "/data/images" else None.

End Examples2.


(** * Properties *)

(** ** Strings and paths *)

Module StringFacts.
Import JsString.

Lemma length_append (a b : string) :
  String.length (a ++ b) = (String.length a + String.length b)%nat.
Proof. induction a as [|x a IH]; simpl; [reflexivity | now rewrite IH]. Qed.

Lemma append_inv_head (a b c : string) : a ++ b = a ++ c -> b = c.
Proof.
  induction a as [|x a IH]; simpl; intros E; [exact E|].
  injection E as E. now apply IH.
Qed.

(** Two strings of one length that agree after the same suffix are equal. *)
Lemma append_inv_tail (c a b : string) : a ++ c = b ++ c -> a = b.
Proof.
  revert b. induction a as [|x a IH]; intros [|y b] E; simpl in E.
  - reflexivity.
  - apply (f_equal String.length) in E. simpl in E.
    rewrite length_append in E. lia.
  - apply (f_equal String.length) in E. simpl in E.
    rewrite length_append in E. lia.
  - injection E as -> E. f_equal. now apply IH.
Qed.

Lemma of_nat_inj (i j : nat) : of_nat i = of_nat j -> i = j.
Proof.
  unfold of_nat. intros E.
  apply DecimalNat.Unsigned.to_uint_inj.
  assert (H : Some (Nat.to_uint i) = Some (Nat.to_uint j)).
  { rewrite <- (NilEmpty.usu (Nat.to_uint i)),
            <- (NilEmpty.usu (Nat.to_uint j)).
    now rewrite E. }
  now injection H.
Qed.




End StringFacts.

Module PathFacts.
Import JsString path StringFacts.

Lemma isAbsolute_cons (c : ascii) (s : string) :
  isAbsolute (String c s) = Ascii.eqb c "/".
Proof.
  unfold isAbsolute, len, charCodeAt. simpl String.length.
  replace (0 <? Z.of_nat (S (String.length s))) with true
    by (symmetry; apply Z.ltb_lt; lia).
  reflexivity.
Qed.

Lemma isAbsolute_inv (p : string) :
  isAbsolute p = true -> exists s, p = String "/" s.
Proof.
  destruct p as [|c s]; [discriminate|].
  rewrite isAbsolute_cons. intros E. apply Ascii.eqb_eq in E.
  subst c. now exists s.
Qed.

(** A path that [path.isAbsolute] accepts holds a slash, so it is no bare
    file name. *)
Lemma absolute_includes_slash (p : string) :
  isAbsolute p = true -> includes p "/" = true.
Proof.
  intros H. destruct (isAbsolute_inv p H) as [s ->].
  unfold includes. simpl. destruct s; reflexivity.
Qed.

Lemma includes_slash_absent_not_absolute (p : string) :
  includes p "/" = false -> isAbsolute p = false.
Proof.
  intros H. destruct (isAbsolute p) eqn:E; [|reflexivity].
  apply absolute_includes_slash in E. congruence.
Qed.

(** The loop of [path.dirname] stops at an index it has visited. *)
Lemma dirnameLoop_range (p : string) (fuel : nat) :
  forall i m,
    dirnameLoop p fuel i m = -1
    \/ (i - Z.of_nat fuel < dirnameLoop p fuel i m <= i).
Proof.
  induction fuel as [|fuel IH]; intros i m; [now left|].
  cbn [dirnameLoop].
  destruct (code_is (charCodeAt p i) CHAR_FORWARD_SLASH).
  - destruct m; cbn [negb].
    + destruct (IH (i - 1) true) as [E | E]; [now left | right; lia].
    + right. lia.
  - destruct (IH (i - 1) false) as [E | E]; [now left | right; lia].
Qed.

(** The directory part of an absolute path is absolute. *)
Lemma dirname_absolute (p : string) :
  isAbsolute p = true -> isAbsolute (dirname p) = true.
Proof.
  intros H. destruct (isAbsolute_inv p H) as [s ->].
  unfold dirname.
  set (q := String "/" s).
  assert (Hlen : len q = Z.of_nat (S (String.length s))) by reflexivity.
  replace (len q =? 0) with false by (symmetry; apply Z.eqb_neq; lia).
  change (code_is (charCodeAt q 0) CHAR_FORWARD_SLASH) with true.
  cbv zeta.
  destruct (dirnameLoop_range q (Z.to_nat (len q - 1)) (len q - 1) true)
    as [E | E].
  - rewrite E. reflexivity.
  - set (e := dirnameLoop q (Z.to_nat (len q - 1)) (len q - 1) true) in *.
    assert (He : 1 <= e) by lia.
    replace (e =? -1) with false by (symmetry; apply Z.eqb_neq; lia).
    destruct (e =? 1); [reflexivity|]. cbn [andb].
    unfold slice. rewrite Z.sub_0_r.
    destruct (Z.to_nat e) as [|k] eqn:Ek; [lia|].
    subst q. simpl. now rewrite isAbsolute_cons.
Qed.

(** *** Joining a file name onto a directory *)












End PathFacts.

(** ** Doubles *)

Module DoubleFacts.
Import Double.


End DoubleFacts.

(** ** Runs of the tools *)

Section RunFacts.

Context {N F : Type} {host : Host N F}.
Variable cfg : Config.

#[local] Abbreviation pure_m := (@pure_m N F _) (only parsing).
#[local] Abbreviation framed := (@framed N F _) (only parsing).

(** *** Computations without effects *)

Lemma pure_ret {A} (a : A) : pure_m (ret a).
Proof. intros s. reflexivity. Qed.

Lemma pure_throw {A} (e : exn) : pure_m (@throw N F A e).
Proof. intros s. reflexivity. Qed.

Lemma pure_bind {A B} (m : M N F A) (k : A -> M N F B) :
  pure_m m -> (forall a, pure_m (k a)) -> pure_m (bind m k).
Proof.
  intros Hm Hk s. unfold bind. specialize (Hm s).
  destruct (m s) as [[a | e] s']; simpl in Hm; subst s'.
  - apply Hk.
  - reflexivity.
Qed.

Lemma pure_getp (v : jsval) (k : string) : pure_m (getp v k).
Proof. intros s. destruct v; reflexivity. Qed.

Lemma pure_mapM {A B} (f : A -> M N F B) (l : list A) :
  (forall a, pure_m (f a)) -> pure_m (mapM f l).
Proof.
  intros Hf. induction l as [|x l IH]; simpl.
  - apply pure_ret.
  - apply pure_bind; [apply Hf|]. intros y.
    apply pure_bind; [exact IH|]. intros ys. apply pure_ret.
Qed.

Lemma pure_array_map (v : jsval) (f : jsval -> M N F jsval) :
  (forall a, pure_m (f a)) -> pure_m (array_map v f).
Proof.
  intros Hf. destruct v; simpl; try apply pure_throw.
  now apply pure_mapM.
Qed.

Lemma pure_api_error_handler (e : exn) : pure_m (api_error_handler e).
Proof. intros s. destruct e; reflexivity. Qed.

(** *** The trace only grows, and nothing reads it *)

Lemma rebase_rebase {A} (t t' : list event) (out : res A * St N F) :
  rebase t (rebase t' out) = rebase (t ++ t') out.
Proof. unfold rebase. simpl. now rewrite app_assoc. Qed.

Lemma framed_ret {A} (a : A) : framed (ret a).
Proof. intros n f t. unfold rebase, ret. simpl. now rewrite app_nil_r. Qed.

Lemma framed_bind {A B} (m : M N F A) (k : A -> M N F B) :
  framed m -> (forall a, framed (k a)) -> framed (bind m k).
Proof.
  intros Hm Hk n f t. unfold bind. rewrite (Hm n f t).
  destruct (m (mkSt n f [])) as [[a | e] [n1 f1 t1]]; cbn.
  - rewrite (Hk a n1 f1 (t ++ t1)%list), (Hk a n1 f1 t1), rebase_rebase.
    reflexivity.
  - reflexivity.
Qed.

Lemma framed_try_catch {A} (m : M N F A) (h : exn -> M N F A) :
  framed m -> (forall e, framed (h e)) -> framed (try_catch m h).
Proof.
  intros Hm Hh n f t. unfold try_catch. rewrite (Hm n f t).
  destruct (m (mkSt n f [])) as [[a | e] [n1 f1 t1]]; cbn.
  - reflexivity.
  - rewrite (Hh e n1 f1 (t ++ t1)%list), (Hh e n1 f1 t1), rebase_rebase.
    reflexivity.
Qed.

Lemma framed_axios_get (url : jsval) : framed (do_axios_get url).
Proof.
  intros n f t. unfold do_axios_get, rebase. cbn.
  destruct (axios_get n url) as [[d | e] n']; reflexivity.
Qed.

Lemma framed_writeFile (p : string) (d : bytes) : framed (do_writeFile p d).
Proof.
  intros n f t. unfold do_writeFile, rebase, emit. cbn.
  destruct (fs_writeFile f p d); reflexivity.
Qed.

Lemma framed_console_error (msg : string) : framed (console_error msg).
Proof. intros n f t. reflexivity. Qed.

Lemma framed_existsSync (p : string) : framed (do_existsSync p).
Proof. intros n f t. reflexivity. Qed.

Lemma framed_mkdirSync (p : string) : framed (do_mkdirSync p).
Proof.
  intros n f t. unfold do_mkdirSync, rebase, emit. cbn.
  destruct (fs_mkdirSync f p); reflexivity.
Qed.

Lemma framed_downloadLoop task_id targetDir customFilename imageUrls :
  forall i acc,
    framed (downloadLoop task_id targetDir customFilename imageUrls i acc).
Proof.
  induction imageUrls as [|url rest IH]; intros i acc; cbn [downloadLoop].
  - apply framed_ret.
  - apply framed_bind; [apply framed_axios_get|]. intros data.
    apply framed_bind; [apply framed_writeFile|]. intros _. apply IH.
Qed.

Lemma framed_ensureTargetDir baseDir targetDir :
  framed (ensureTargetDir baseDir targetDir).
Proof.
  unfold ensureTargetDir.
  apply framed_try_catch; [|intros e; apply framed_ret].
  apply framed_bind; [apply framed_console_error|]. intros _.
  apply framed_bind; [apply framed_existsSync|]. intros found.
  apply framed_bind; [|intros _; apply framed_ret].
  destruct found; [apply framed_ret | apply framed_mkdirSync].
Qed.

Lemma framed_downloadAll task_id targetDir customFilename imageUrls :
  framed (downloadAll task_id targetDir customFilename imageUrls).
Proof.
  unfold downloadAll.
  apply framed_bind; [apply framed_downloadLoop|]. intros r.
  apply framed_ret.
Qed.

End RunFacts.

(** ** The tools *)

Section ToolFacts.

Context {N F : Type} {host : Host N F}.
Variable cfg : Config.

#[local] Abbreviation pure_m := (@pure_m N F _) (only parsing).
#[local] Abbreviation framed := (@framed N F _) (only parsing).

Lemma getp_readable (v : jsval) (k : string) (s : St N F) :
  readable v = true -> getp v k s = (Ret (field v k), s).
Proof. destruct v; (discriminate || reflexivity). Qed.

Lemma is_string_readable (v : jsval) (k s : string) :
  is_string (field v k) s = true -> readable v = true.
Proof. destruct v; (discriminate || reflexivity). Qed.

(** Steps 1 and 2: a task that has not succeeded. *)
Lemma fetchImageUrls_not_succeeded task_id n f t statusData n' :
  apiClient_get n ("/tasks/" ++ task_id) = (inl statusData, n') ->
  readable statusData = true ->
  readable (field statusData "output") = true ->
  is_string (field (field statusData "output") "task_status") "SUCCEEDED"
    = false ->
  fetchImageUrls task_id (mkSt n f t)
  = (Ret (inl (mkResult ("Task not completed or failed: " ++
                         JSON_stringify2 statusData) true)),
     mkSt n' f (t ++ [EvApiGet ("/tasks/" ++ task_id)])).
Proof.
  intros Hget Hd Ho Hs.
  unfold fetchImageUrls, bind at 1, do_apiClient_get.
  cbn [net fs trace]. rewrite Hget.
  unfold bind at 1. rewrite getp_readable by exact Hd.
  unfold bind at 1. rewrite getp_readable by exact Ho.
  rewrite Hs. reflexivity.
Qed.

(** Steps 1 to 3: a task that has succeeded, with its [results]. *)
Lemma fetchImageUrls_succeeded task_id n f t statusData n' :
  apiClient_get n ("/tasks/" ++ task_id) = (inl statusData, n') ->
  is_string (field (field statusData "output") "task_status") "SUCCEEDED"
    = true ->
  fetchImageUrls task_id (mkSt n f t)
  = let s' := mkSt n' f (t ++ [EvApiGet ("/tasks/" ++ task_id)]) in
    match array_map (field (field statusData "output") "results")
                    (fun result => getp result "url") s' with
    | (Ret imageUrls, s'') =>
        if Nat.eqb (List.length imageUrls) 0
        then (Ret (inl (mkResult "No image URL found" true)), s'')
        else (Ret (inr imageUrls), s'')
    | (Throw e, s'') => (Throw e, s'')
    end.
Proof.
  intros Hget Hs.
  pose proof (is_string_readable _ _ _ Hs) as Ho.
  assert (Hd : readable statusData = true).
  { destruct statusData; (discriminate || reflexivity). }
  unfold fetchImageUrls, bind at 1, do_apiClient_get.
  cbn [net fs trace]. rewrite Hget.
  unfold bind at 1. rewrite getp_readable by exact Hd.
  unfold bind at 1. rewrite getp_readable by exact Ho.
  rewrite Hs. cbn [negb].
  unfold bind at 1. rewrite getp_readable by exact Hd.
  unfold bind at 1. rewrite getp_readable by exact Ho.
  unfold bind at 1. cbv zeta.
  destruct (array_map _ _ _) as [[urls | e] s'']; [|reflexivity].
  destruct (Nat.eqb (List.length urls) 0); reflexivity.
Qed.

Lemma fetchImageUrls_state task_id (s : St N F) :
  snd (fetchImageUrls task_id s)
  = mkSt (snd (apiClient_get (net s) ("/tasks/" ++ task_id))) (fs s)
         (trace s ++ [EvApiGet ("/tasks/" ++ task_id)]).
Proof.
  unfold fetchImageUrls, bind at 1, do_apiClient_get.
  destruct (apiClient_get (net s) ("/tasks/" ++ task_id)) as [[d | e] n'];
    [|reflexivity].
  cbn [snd].
  match goal with
  | |- snd (?m ?s0) = _ => assert (Hp : pure_m m); [|exact (Hp s0)]
  end.
  apply pure_bind; [apply pure_getp|]. intros output.
  apply pure_bind; [apply pure_getp|]. intros task_status.
  destruct (negb (is_string task_status "SUCCEEDED")); [apply pure_ret|].
  apply pure_bind; [apply pure_getp|]. intros output'.
  apply pure_bind; [apply pure_getp|]. intros results.
  apply pure_bind; [apply pure_array_map; intros a; apply pure_getp|].
  intros urls. destruct (Nat.eqb (List.length urls) 0); apply pure_ret.
Qed.

(** The directory step, case by case. *)
Lemma ensureTargetDir_run baseDir targetDir n f t :
  let d := absoluteTargetDir_of baseDir targetDir in
  let log := EvConsoleError (resolving_message baseDir targetDir) in
  ensureTargetDir baseDir targetDir (mkSt n f t)
  = if fs_existsSync f d then
      (Ret (inr d), mkSt n f (t ++ [log; EvExistsSync d true]))
    else
      match fs_mkdirSync f d with
      | inl f' =>
          (Ret (inr d),
           mkSt n f' (t ++ [log; EvExistsSync d false; EvMkdirSync d true]))
      | inr msg =>
          (Ret (inl (mkResult ("Failed to create directory: " ++ msg) true)),
           mkSt n f (t ++ [log; EvExistsSync d false; EvMkdirSync d false]))
      end.
Proof.
  cbv zeta.
  unfold ensureTargetDir, try_catch, bind, console_error, do_existsSync,
    do_mkdirSync, emit, resolving_message.
  cbn [net fs trace].
  destruct (fs_existsSync f (absoluteTargetDir_of baseDir targetDir)).
  - cbn. rewrite <- app_assoc. reflexivity.
  - cbn. destruct (fs_mkdirSync f (absoluteTargetDir_of baseDir targetDir));
      cbn; rewrite <- !app_assoc; reflexivity.
Qed.

Lemma downloadLoop_events task_id targetDir customFilename imageUrls :
  forall i acc n f,
    forallb loop_event
      (trace (snd (downloadLoop task_id targetDir customFilename
                                imageUrls i acc (mkSt n f []))))
    = true.
Proof.
  induction imageUrls as [|url rest IH]; intros i acc n f;
    cbn [downloadLoop]; [reflexivity|].
  unfold bind at 1, do_axios_get. cbn [net fs trace app].
  destruct (axios_get n url) as [[data | e] n1]; [|reflexivity].
  unfold bind at 1, do_writeFile, emit. cbn [net fs trace app].
  destruct (fs_writeFile f _ data) as [f1 | msg]; [|reflexivity].
  rewrite framed_downloadLoop. unfold rebase. cbn [snd trace].
  rewrite forallb_app, IH. reflexivity.
Qed.

Lemma downloadAll_events task_id targetDir customFilename imageUrls n f :
  forallb loop_event
    (trace (snd (downloadAll task_id targetDir customFilename imageUrls
                             (mkSt n f []))))
  = true.
Proof.
  unfold downloadAll, bind.
  pose proof (downloadLoop_events task_id targetDir customFilename
                imageUrls 0 [] n f) as H.
  destruct (downloadLoop _ _ _ _ _ _ _) as [[r | e] s']; exact H.
Qed.

(** Step 4, case by case. *)
Lemma saveImages_run args imageUrls n f t targetDir customFilename :
  resolveTarget cfg args = inr (targetDir, customFilename) ->
  let d := absoluteTargetDir_of (baseDir_of cfg args) targetDir in
  let log :=
    EvConsoleError (resolving_message (baseDir_of cfg args) targetDir) in
  let task_id := str_of (field args "task_id") in
  saveImages cfg args imageUrls (mkSt n f t)
  = if fs_existsSync f d then
      downloadAll task_id d customFilename imageUrls
        (mkSt n f (t ++ [log; EvExistsSync d true]))
    else
      match fs_mkdirSync f d with
      | inl f' =>
          downloadAll task_id d customFilename imageUrls
            (mkSt n f' (t ++ [log; EvExistsSync d false; EvMkdirSync d true]))
      | inr msg =>
          (Ret (mkResult ("Failed to create directory: " ++ msg) true),
           mkSt n f (t ++ [log; EvExistsSync d false; EvMkdirSync d false]))
      end.
Proof.
  intros Hres. cbv zeta. unfold saveImages. rewrite Hres.
  unfold bind. rewrite ensureTargetDir_run.
  destruct (fs_existsSync f _); [reflexivity|].
  destruct (fs_mkdirSync f _); reflexivity.
Qed.

Lemma try_catch_api_state (m : M N F ToolResult) (s : St N F) :
  snd (try_catch m api_error_handler s) = snd (m s).
Proof.
  unfold try_catch. destruct (m s) as [[a | e] s']; [reflexivity|].
  apply pure_api_error_handler.
Qed.

Lemma try_catch_api_ret (m : M N F ToolResult) (s s' : St N F) a :
  m s = (Ret a, s') -> try_catch m api_error_handler s = (Ret a, s').
Proof. intros E. unfold try_catch. now rewrite E. Qed.

Lemma downloadImage_shape args n f :
  run_shape cfg args f (run (downloadImage cfg args) n f).
Proof.
  unfold run, downloadImage.
  destruct (isValidTaskIdArgs args); cbn [negb];
    [|now apply shape_rejected].
  set (task_id := str_of (field args "task_id")).
  set (u := "/tasks/" ++ task_id).
  match goal with
  | |- run_shape _ _ _ (try_catch ?m _ ?s) =>
      set (body := m); set (s0 := s)
  end.
  pose proof (try_catch_api_state body s0) as Hsnd.
  pose proof (fetchImageUrls_state task_id s0) as Hfetch.
  cbn [net fs trace app s0] in Hfetch. fold u in Hfetch.
  set (n1 := snd (apiClient_get n u)) in *.
  assert (Hbody :
    (trace (snd (body s0)) = [EvApiGet u] /\ fs (snd (body s0)) = f)
    \/ exists imageUrls,
         body s0 = saveImages cfg args imageUrls (mkSt n1 f [EvApiGet u])).
  { unfold body, bind.
    destruct (fetchImageUrls task_id s0) as [[[early | urls] | e] s1];
      cbn [snd] in Hfetch; subst s1.
    - left. split; reflexivity.
    - right. now exists urls.
    - left. split; reflexivity. }
  destruct Hbody as [[Ht Hf] | [urls Hbody]].
  { apply shape_status_only with (u := u); rewrite Hsnd; assumption. }
  destruct (resolveTarget cfg args) as [early | [td cf]] eqn:Hres.
  { apply shape_status_only with (u := u); rewrite Hsnd, Hbody;
      unfold saveImages; rewrite Hres; reflexivity. }
  rewrite (saveImages_run _ _ _ _ _ _ _ Hres) in Hbody.
  set (d := absoluteTargetDir_of (baseDir_of cfg args) td) in *.
  destruct (fs_existsSync f d) eqn:Hex.
  - rewrite framed_downloadAll in Hbody.
    apply shape_downloading with (u := u) (td := td) (cf := cf)
      (found := true)
      (t := trace (snd (downloadAll task_id d cf urls (mkSt n1 f [])))).
    + exact Hres.
    + rewrite Hsnd, Hbody. reflexivity.
    + exact Hex.
    + now exists urls, n1, f.
  - destruct (fs_mkdirSync f d) as [f' | msg] eqn:Hmk.
    + rewrite framed_downloadAll in Hbody.
      apply shape_downloading with (u := u) (td := td) (cf := cf)
        (found := false)
        (t := trace (snd (downloadAll task_id d cf urls (mkSt n1 f' [])))).
      * exact Hres.
      * rewrite Hsnd, Hbody. reflexivity.
      * exact Hex.
      * now exists urls, n1, f'.
    + apply shape_mkdir_failed with (u := u) (td := td) (cf := cf)
        (msg := msg).
      * exact Hres.
      * rewrite Hsnd, Hbody. reflexivity.
      * rewrite Hsnd, Hbody. reflexivity.
      * exact Hex.
      * rewrite (try_catch_api_ret _ _ _ _ Hbody). reflexivity.
Qed.

Lemma split_past_prefix (h pre post t : list event) (e : event) :
  (pre ++ e :: post = h ++ t)%list -> ~ In e h ->
  exists pre', pre = (h ++ pre')%list.
Proof.
  revert pre. induction h as [|a h IH]; intros pre E Hn.
  - now exists pre.
  - destruct pre as [|b pre]; cbn in E; injection E as E1 E2.
    + subst. exfalso. apply Hn. now left.
    + subst b. destruct (IH pre E2) as [pre' ->].
      * intros Hin. apply Hn. now right.
      * now exists pre'.
Qed.

Lemma loop_events_only (t : list event) (e : event) :
  forallb loop_event t = true -> In e t -> loop_event e = true.
Proof. intros H Hin. rewrite forallb_forall in H. now apply H. Qed.

(** What C6 asks, for the variant with [base_dir]. In every run of
    [downloadImage], whatever the arguments, the network and the file
    system: (1) an artifact is fetched only after the
    directory step for the resolved absolute directory is complete, that is
    after [fs.existsSync] found it or [fs.mkdirSync] (recursive) created it;
    (2) when [fs.mkdirSync] throws, the run returns the error-flagged result
    [Failed to create directory: ...], fetches no artifact and leaves the
    file system as it was. *)
Theorem directory_ready_before_artifact_fetch (args : jsval) (n : N) (f : F) :
  let out := run (downloadImage cfg args) n f in
  (forall pre url post,
      trace (snd out) = (pre ++ EvAxiosGet url :: post)%list ->
      exists d, resolvedDir cfg args = Some d
                /\ (In (EvExistsSync d true) pre
                    \/ In (EvMkdirSync d true) pre))
  /\ (forall d,
        In (EvMkdirSync d false) (trace (snd out)) ->
        (exists msg,
            fst out
            = Ret (mkResult ("Failed to create directory: " ++ msg) true))
        /\ existsb is_artifact_fetch (trace (snd out)) = false
        /\ fs (snd out) = f).
Proof.
  cbv zeta. destruct (downloadImage_shape args n f)
    as [Ht Hf | u Ht Hf | u td cf msg Hres d Ht Hf Hex Hr
        | u td cf t found Hres d Ht Hex [urls [n1 [f1 Hloop]]]].
  - split.
    + intros pre url post E. rewrite Ht in E.
      now destruct pre.
    + intros d0 Hin. rewrite Ht in Hin. destruct Hin.
  - split.
    + intros pre url post E. rewrite Ht in E.
      destruct pre as [|? [|? ?]]; discriminate.
    + intros d0 Hin. rewrite Ht in Hin.
      destruct Hin as [Hin | []]. discriminate.
  - split.
    + intros pre url post E. rewrite Ht in E.
      assert (Hin : In (EvAxiosGet url) (pre ++ EvAxiosGet url :: post))
        by (apply in_or_app; right; now left).
      rewrite <- E in Hin. cbn in Hin.
      repeat (destruct Hin as [Hin | Hin]; [discriminate|]). destruct Hin.
    + intros d0 _. rewrite Ht. split; [now exists msg|].
      split; [reflexivity | exact Hf].
  - assert (Hev : forallb loop_event t = true)
      by (rewrite Hloop; apply downloadAll_events).
    split.
    + intros pre url post E. rewrite Ht in E.
      exists d. split; [unfold resolvedDir; now rewrite Hres|].
      rewrite app_assoc in E. symmetry in E.
      apply split_past_prefix in E.
      * destruct E as [pre' ->].
        destruct found; [left | right]; apply in_or_app; left;
          cbn; tauto.
      * intros Hin. apply in_app_or in Hin. cbn in Hin.
        destruct found; cbn in Hin;
          repeat (destruct Hin as [Hin | Hin]; try discriminate);
          try contradiction.
    + intros d0 Hin. exfalso. rewrite Ht in Hin.
      apply in_app_or in Hin. destruct Hin as [Hin | Hin].
      { cbn in Hin.
        repeat (destruct Hin as [Hin | Hin]; [discriminate|]).
        destruct Hin. }
      apply in_app_or in Hin. destruct Hin as [Hin | Hin].
      { destruct found; cbn in Hin; [destruct Hin|].
        destruct Hin as [Hin | []]. discriminate. }
      apply (loop_events_only _ _ Hev) in Hin. discriminate.
Qed.

Lemma downloadImage_valid args n f :
  isValidTaskIdArgs args = true ->
  run (downloadImage cfg args) n f
  = try_catch
      (bind (fetchImageUrls (str_of (field args "task_id")))
            (fun r => match r with
                      | inl early => ret early
                      | inr imageUrls => saveImages cfg args imageUrls
                      end))
      api_error_handler (mkSt n f []).
Proof. intros H. unfold run, downloadImage. now rewrite H. Qed.

Lemma SrcIndex_downloadImage_valid args n f :
  SrcIndex.isValidTaskIdArgs args = true ->
  run (SrcIndex.downloadImage cfg args) n f
  = try_catch
      (bind (fetchImageUrls (str_of (field args "task_id")))
            (fun r => match r with
                      | inl early => ret early
                      | inr imageUrls => SrcIndex.saveImages cfg args imageUrls
                      end))
      api_error_handler (mkSt n f []).
Proof. intros H. unfold run, SrcIndex.downloadImage. now rewrite H. Qed.

(** C2 (amended). When the status fetched for the task carries a
    [task_status] other than [SUCCEEDED], an accepted [downloadImage] call
    returns a result that IS flagged [isError: true], whose text holds the
    whole status payload; the only action of the run is the status query:
    the file system is untouched and no artifact is fetched.  This holds
    for both variants of [downloadImage]. *)
Theorem download_not_succeeded_is_error_flagged
    (args statusData : jsval) (n n' : N) (f : F) :
  apiClient_get n (status_url args) = (inl statusData, n') ->
  readable statusData = true ->
  readable (field statusData "output") = true ->
  is_string (field (field statusData "output") "task_status") "SUCCEEDED"
    = false ->
  let outcome :=
    (Ret (mkResult ("Task not completed or failed: " ++
                    JSON_stringify2 statusData) true),
     mkSt n' f [EvApiGet (status_url args)]) in
  (isValidTaskIdArgs args = true ->
   run (downloadImage cfg args) n f = outcome)
  /\ (SrcIndex.isValidTaskIdArgs args = true ->
      run (SrcIndex.downloadImage cfg args) n f = outcome).
Proof.
  intros Hget Hd Ho Hs outcome. split; intros Hv.
  - rewrite downloadImage_valid by exact Hv.
    apply try_catch_api_ret. unfold bind.
    rewrite (fetchImageUrls_not_succeeded _ _ _ _ _ _ Hget Hd Ho Hs).
    reflexivity.
  - rewrite SrcIndex_downloadImage_valid by exact Hv.
    apply try_catch_api_ret. unfold bind.
    rewrite (fetchImageUrls_not_succeeded _ _ _ _ _ _ Hget Hd Ho Hs).
    reflexivity.
Qed.

(** A task that succeeded with an empty [results] list: the
    [No image URL found] result, flagged [isError: true], and no access to
    the file system, in both variants. *)
Lemma download_results_empty
    (args statusData : jsval) (n n' : N) (f : F) :
  apiClient_get n (status_url args) = (inl statusData, n') ->
  is_string (field (field statusData "output") "task_status") "SUCCEEDED"
    = true ->
  field (field statusData "output") "results" = JArr [] ->
  let outcome :=
    (Ret (mkResult "No image URL found" true),
     mkSt n' f [EvApiGet (status_url args)]) in
  (isValidTaskIdArgs args = true ->
   run (downloadImage cfg args) n f = outcome)
  /\ (SrcIndex.isValidTaskIdArgs args = true ->
      run (SrcIndex.downloadImage cfg args) n f = outcome).
Proof.
  intros Hget Hs Hr outcome. split; intros Hv.
  - rewrite downloadImage_valid by exact Hv.
    apply try_catch_api_ret. unfold bind.
    rewrite (fetchImageUrls_succeeded _ _ _ _ _ _ Hget Hs), Hr.
    reflexivity.
  - rewrite SrcIndex_downloadImage_valid by exact Hv.
    apply try_catch_api_ret. unfold bind.
    rewrite (fetchImageUrls_succeeded _ _ _ _ _ _ Hget Hs), Hr.
    reflexivity.
Qed.

(** C3 (the code at the failing input). A task that succeeded but whose
    status payload has no [results] field: [results.map] throws a
    [TypeError], which is no axios error and leaves [downloadImage] as an
    exception; the [No image URL found] result is not produced.  The file
    system is not accessed.  Both variants do so. *)
Theorem download_results_absent_throws
    (args statusData : jsval) (n n' : N) (f : F) :
  apiClient_get n (status_url args) = (inl statusData, n') ->
  is_string (field (field statusData "output") "task_status") "SUCCEEDED"
    = true ->
  field (field statusData "output") "results" = JUndefined ->
  let outcome :=
    (Throw (TypeError "Cannot read properties of undefined (reading 'map')"),
     mkSt n' f [EvApiGet (status_url args)]) in
  (isValidTaskIdArgs args = true ->
   run (downloadImage cfg args) n f = outcome)
  /\ (SrcIndex.isValidTaskIdArgs args = true ->
      run (SrcIndex.downloadImage cfg args) n f = outcome).
Proof.
  intros Hget Hs Hr outcome. split; intros Hv.
  - rewrite downloadImage_valid by exact Hv.
    unfold try_catch, bind.
    rewrite (fetchImageUrls_succeeded _ _ _ _ _ _ Hget Hs), Hr.
    reflexivity.
  - rewrite SrcIndex_downloadImage_valid by exact Hv.
    unfold try_catch, bind.
    rewrite (fetchImageUrls_succeeded _ _ _ _ _ _ Hget Hs), Hr.
    reflexivity.
Qed.

(** C6 (the code of [src/index.ts] at the failing input). In the variant
    of [src/index.ts] the directory is created inside the outer [try] only:
    when [fs.mkdirSync] throws, the system error is no axios error and
    leaves [downloadImage] as an exception; no [Failed to create directory]
    result is returned.  No artifact is fetched. *)
Theorem mkdir_failure_escapes_src_index
    (args : jsval) (n n1 : N) (f : F) (imageUrls : list jsval)
    (msg : string) :
  SrcIndex.isValidTaskIdArgs args = true ->
  fetchImageUrls (str_of (field args "task_id")) (mkSt n f [])
  = (Ret (inr imageUrls), mkSt n1 f [EvApiGet (status_url args)]) ->
  fs_existsSync f (SrcIndex.targetDir_of cfg args) = false ->
  fs_mkdirSync f (SrcIndex.targetDir_of cfg args) = inr msg ->
  run (SrcIndex.downloadImage cfg args) n f
  = (Throw (SystemError msg),
     mkSt n1 f
       [EvApiGet (status_url args);
        EvExistsSync (SrcIndex.targetDir_of cfg args) false;
        EvMkdirSync (SrcIndex.targetDir_of cfg args) false]).
Proof.
  intros Hv Hfetch Hex Hmk.
  rewrite SrcIndex_downloadImage_valid by exact Hv.
  unfold try_catch, bind at 1. rewrite Hfetch.
  unfold SrcIndex.saveImages, bind, do_existsSync, do_mkdirSync, emit.
  cbn [net fs trace]. rewrite Hex. cbn [negb net fs trace].
  rewrite Hmk. reflexivity.
Qed.

(** C1 (amended). A call whose [save_path] is a non-empty bare file name,
    without any slash, is rejected by the argument validation, whatever
    [base_dir] is: [InvalidParams] is thrown before any network or file
    system action.  And no call at all reaches the branch that pairs an
    empty [targetDir] with a file name override. *)
Theorem bare_filename_is_rejected (args : jsval) (name : string)
    (n : N) (f : F) :
  field args "save_path" = JStr name ->
  name <> "" ->
  JsString.includes name "/" = false ->
  isValidTaskIdArgs args = false
  /\ run (downloadImage cfg args) n f
     = (Throw (McpError InvalidParams "Invalid task ID parameter"),
        mkSt n f [])
  /\ (forall a override, resolveTarget cfg a <> inr ("", Some override)).
Proof.
  intros Hsp Hne Hbare.
  assert (Hinv : isValidTaskIdArgs args = false).
  { unfold isValidTaskIdArgs. rewrite Hsp. cbn [is_undefined typeof str_of].
    rewrite (PathFacts.includes_slash_absent_not_absolute _ Hbare).
    cbn [is_string orb].
    replace (String.eqb name "") with false
      by (symmetry; now apply String.eqb_neq).
    cbn. now rewrite !andb_false_r. }
  split; [exact Hinv|]. split.
  - unfold run, downloadImage. now rewrite Hinv.
  - intros a override. unfold resolveTarget.
    destruct (truthy (field a "save_path")); [|discriminate].
    destruct (path.isAbsolute (str_of (field a "save_path"))) eqn:Habs;
      cbn [negb]; [|discriminate].
    destruct (_ && _); [|discriminate].
    unfold path.sep.
    rewrite (PathFacts.absolute_includes_slash _ Habs). cbn [negb andb].
    intros E. injection E as E _.
    pose proof (PathFacts.dirname_absolute _ Habs) as Hd.
    rewrite E in Hd. discriminate.
Qed.

Lemma fetchImageUrls_early task_id (s s' : St N F) early :
  fetchImageUrls task_id s = (Ret (inl early), s') ->
  (exists payload,
      early = mkResult ("Task not completed or failed: " ++ payload) true)
  \/ early = mkResult "No image URL found" true.
Proof.
  unfold fetchImageUrls, bind.
  destruct (do_apiClient_get _ s) as [[statusData | e] s1]; [|discriminate].
  destruct (getp statusData "output" s1) as [[output | e] s2];
    [|discriminate].
  destruct (getp output "task_status" s2) as [[task_status | e] s3];
    [|discriminate].
  destruct (negb (is_string task_status "SUCCEEDED")).
  { intros E. injection E as <- _. left.
    now exists (JSON_stringify2 statusData). }
  destruct (getp statusData "output" s3) as [[output' | e] s4];
    [|discriminate].
  destruct (getp output' "results" s4) as [[results | e] s5];
    [|discriminate].
  destruct (array_map results _ s5) as [[urls | e] s6]; [|discriminate].
  destruct (Nat.eqb (List.length urls) 0); [|discriminate].
  intros E. injection E as <- _. now right.
Qed.

Lemma downloadAll_ret task_id d cf urls (s s' : St N F) r :
  downloadAll task_id d cf urls s = (Ret r, s') -> isError r = false.
Proof.
  unfold downloadAll, bind.
  destruct (downloadLoop _ _ _ _ _ _ s) as [[results | e] s1];
    [|discriminate].
  intros E. injection E as <- _. reflexivity.
Qed.

(** C10. When [fs.existsSync] finds an entry at the resolved directory
    path (the test does not tell a file from a directory), then (1) the
    run never calls [fs.mkdirSync], and (2) it never returns the
    [Failed to create directory] result; (3) if the first artifact is
    fetched and writing it fails, the system error is no axios error and
    leaves [downloadImage] as an exception, after exactly one artifact
    fetch and one failed write. *)
Theorem existing_entry_skips_directory_creation
    (args : jsval) (n : N) (f : F) (td : string) (cf : option string) :
  resolveTarget cfg args = inr (td, cf) ->
  let d := absoluteTargetDir_of (baseDir_of cfg args) td in
  let task_id := str_of (field args "task_id") in
  fs_existsSync f d = true ->
  let out := run (downloadImage cfg args) n f in
  (forall p ok, ~ In (EvMkdirSync p ok) (trace (snd out)))
  /\ (forall msg,
        fst out
        <> Ret (mkResult ("Failed to create directory: " ++ msg) true))
  /\ (forall url rest n1 data n2 msg,
        isValidTaskIdArgs args = true ->
        fetchImageUrls task_id (mkSt n f [])
        = (Ret (inr (url :: rest)), mkSt n1 f [EvApiGet (status_url args)]) ->
        axios_get n1 url = (inl data, n2) ->
        fs_writeFile f (path.join d (filename_of task_id cf 0)) data
        = inr msg ->
        out
        = (Throw (SystemError msg),
           mkSt n2 f
             [EvApiGet (status_url args);
              EvConsoleError (resolving_message (baseDir_of cfg args) td);
              EvExistsSync d true;
              EvAxiosGet url;
              EvWriteFile (path.join d (filename_of task_id cf 0))
                          data false])).
Proof.
  intros Hres d task_id Hex out.
  split; [|split].
  - intros p ok Hin. subst out.
    destruct (downloadImage_shape args n f)
      as [Ht Hf | u Ht Hf | u td' cf' msg Hres' d' Ht Hf Hex' Hr
          | u td' cf' t found Hres' d' Ht Hex' [urls [n1 [f1 Hloop]]]].
    + rewrite Ht in Hin. destruct Hin.
    + rewrite Ht in Hin. destruct Hin as [Hin | []]. discriminate.
    + rewrite Hres in Hres'. injection Hres' as <- <-.
      subst d'. fold d in Hex'. congruence.
    + rewrite Hres in Hres'. injection Hres' as <- <-.
      subst d'. fold d in Hex'. rewrite Hex in Hex'. subst found.
      rewrite Ht in Hin. apply in_app_or in Hin.
      destruct Hin as [Hin | Hin].
      { cbn in Hin.
        repeat (destruct Hin as [Hin | Hin]; [discriminate|]).
        destruct Hin. }
      cbn [app] in Hin.
      assert (Hev : forallb loop_event t = true)
        by (rewrite Hloop; apply downloadAll_events).
      apply (loop_events_only _ _ Hev) in Hin. discriminate.
  - intros msg. subst out. unfold run, downloadImage.
    destruct (isValidTaskIdArgs args); cbn [negb]; [|discriminate].
    unfold try_catch, bind. fold task_id.
    pose proof (fetchImageUrls_state task_id (mkSt n f [])) as Hst.
    destruct (fetchImageUrls task_id (mkSt n f []))
      as [[[early | urls] | e] s1] eqn:Hfetch.
    + cbn. apply fetchImageUrls_early in Hfetch.
      destruct Hfetch as [[payload ->] | ->]; cbn; intros E;
        discriminate E.
    + cbn [snd] in Hst. rewrite Hst.
      cbn [net fs trace].
      rewrite (saveImages_run _ _ _ _ _ _ _ Hres). fold d. rewrite Hex.
      destruct (downloadAll _ d cf urls _) as [[r | e] s2] eqn:Hall.
      * cbn. apply downloadAll_ret in Hall. intros E.
        injection E as ->. discriminate.
      * destruct e; cbn; discriminate.
    + destruct e; cbn; discriminate.
  - intros url rest n1 data n2 msg Hv Hfetch Hget Hwrite. subst out.
    rewrite downloadImage_valid by exact Hv.
    unfold try_catch, bind at 1. fold task_id. rewrite Hfetch.
    rewrite (saveImages_run _ _ _ _ _ _ _ Hres). fold d. rewrite Hex.
    unfold downloadAll. cbn [downloadLoop].
    unfold bind, do_axios_get, do_writeFile, emit.
    cbn [net fs trace]. rewrite Hget. cbn [net fs trace].
    fold task_id. rewrite Hwrite. reflexivity.
Qed.

Lemma resolveTarget_congr (args1 args2 : jsval) :
  field args1 "save_path" = field args2 "save_path" ->
  resolveTarget cfg args1 = resolveTarget cfg args2.
Proof. intros E. unfold resolveTarget. now rewrite E. Qed.

(** Every [targetDir] that comes out of the resolution is absolute, as soon
    as [SAVE_DIR] is. *)
Lemma resolveTarget_absolute (args : jsval) td cf :
  path.isAbsolute (SAVE_DIR cfg) = true ->
  resolveTarget cfg args = inr (td, cf) ->
  path.isAbsolute td = true.
Proof.
  intros Hsave. unfold resolveTarget.
  destruct (truthy (field args "save_path")).
  - destruct (path.isAbsolute (str_of (field args "save_path"))) eqn:Habs;
      cbn [negb]; [|discriminate].
    destruct (_ && _).
    + unfold path.sep.
      rewrite (PathFacts.absolute_includes_slash _ Habs). cbn [negb andb].
      intros E. injection E as <- _. now apply PathFacts.dirname_absolute.
    + intros E. injection E as <- _. exact Habs.
  - intros E. injection E as <- _. exact Hsave.
Qed.

Lemma absoluteTargetDir_of_absolute (baseDir targetDir : string) :
  path.isAbsolute targetDir = true ->
  absoluteTargetDir_of baseDir targetDir = targetDir.
Proof. intros H. unfold absoluteTargetDir_of. now rewrite H. Qed.

(** C9. With an absolute [SAVE_DIR], two accepted calls that agree on
    [task_id] and [save_path] (so that they differ in [base_dir] at most),
    run against the same network and file system, resolve to the same
    directory, return the same result (with the same [saved_to] paths),
    leave the same network and file system, and perform the same actions
    apart from the line logged to [stderr]: every [targetDir] the
    resolution yields is absolute, so [base_dir] is never joined in. *)
Theorem base_dir_is_irrelevant (args1 args2 : jsval) (n : N) (f : F) :
  path.isAbsolute (SAVE_DIR cfg) = true ->
  isValidTaskIdArgs args1 = true ->
  isValidTaskIdArgs args2 = true ->
  field args1 "task_id" = field args2 "task_id" ->
  field args1 "save_path" = field args2 "save_path" ->
  let out1 := run (downloadImage cfg args1) n f in
  let out2 := run (downloadImage cfg args2) n f in
  (forall td cf, resolveTarget cfg args1 = inr (td, cf) ->
                 path.isAbsolute td = true
                 /\ absoluteTargetDir_of (baseDir_of cfg args1) td = td
                 /\ absoluteTargetDir_of (baseDir_of cfg args2) td = td)
  /\ resolvedDir cfg args1 = resolvedDir cfg args2
  /\ fst out1 = fst out2
  /\ net (snd out1) = net (snd out2)
  /\ fs (snd out1) = fs (snd out2)
  /\ quiet (trace (snd out1)) = quiet (trace (snd out2)).
Proof.
  intros Hsave Hv1 Hv2 Htid Hsp out1 out2.
  pose proof (resolveTarget_congr _ _ Hsp) as Hsame.
  assert (Habs : forall td cf,
             resolveTarget cfg args1 = inr (td, cf) ->
             path.isAbsolute td = true
             /\ absoluteTargetDir_of (baseDir_of cfg args1) td = td
             /\ absoluteTargetDir_of (baseDir_of cfg args2) td = td).
  { intros td cf Hres.
    pose proof (resolveTarget_absolute _ _ _ Hsave Hres) as Ha.
    now rewrite !absoluteTargetDir_of_absolute. }
  split; [exact Habs|]. split.
  { unfold resolvedDir. rewrite <- Hsame.
    destruct (resolveTarget cfg args1) as [early | [td cf]] eqn:Hres;
      [reflexivity|].
    destruct (Habs td cf eq_refl) as [_ [-> ->]]. reflexivity. }
  subst out1 out2. rewrite !downloadImage_valid by assumption.
  rewrite <- Htid. set (task_id := str_of (field args1 "task_id")).
  unfold try_catch, bind.
  destruct (fetchImageUrls task_id (mkSt n f []))
    as [[[early | urls] | e] [n1 f1 t1]].
  - cbn. repeat split; reflexivity.
  - destruct (resolveTarget cfg args1) as [early | [td cf]] eqn:Hres.
    { unfold saveImages. rewrite <- Hsame, Hres. cbn. repeat split; reflexivity. }
    pose proof (eq_sym Hsame) as Hres2.
    rewrite (saveImages_run args1 _ _ _ _ _ _ Hres),
            (saveImages_run args2 _ _ _ _ _ _ Hres2).
    destruct (Habs td cf eq_refl) as [_ [-> ->]].
    rewrite <- Htid. fold task_id.
    destruct (fs_existsSync f1 td).
    + rewrite (framed_downloadAll _ _ _ _ n1 f1 (t1 ++ [_; _])%list).
      rewrite (framed_downloadAll _ _ _ _ n1 f1
                 (t1 ++ [EvConsoleError
                           (resolving_message (baseDir_of cfg args2) td);
                         _])%list).
      destruct (downloadAll task_id td cf urls (mkSt n1 f1 []))
        as [[r | e] [n2 f2 t2]]; unfold rebase, quiet;
        [|destruct e]; cbn [fst snd net fs trace api_error_handler isAxiosError ret throw];
        rewrite !filter_app; cbn; repeat split; reflexivity.
    + destruct (fs_mkdirSync f1 td) as [f1' | msg].
      * rewrite (framed_downloadAll _ _ _ _ n1 f1' (t1 ++ [_; _; _])%list).
        rewrite (framed_downloadAll _ _ _ _ n1 f1'
                   (t1 ++ [EvConsoleError
                             (resolving_message (baseDir_of cfg args2) td);
                           _; _])%list).
        destruct (downloadAll task_id td cf urls (mkSt n1 f1' []))
          as [[r | e] [n2 f2 t2]]; unfold rebase, quiet;
          [|destruct e];
          cbn [fst snd net fs trace api_error_handler isAxiosError ret throw];
          rewrite !filter_app; cbn; repeat split; reflexivity.
      * unfold quiet. cbn [fst snd net fs trace].
        rewrite !filter_app; cbn; repeat split; reflexivity.
  - destruct e; cbn; repeat split; reflexivity.
Qed.

Lemma existsSync_event_dir (args : jsval) (n : N) (f : F) d found :
  In (EvExistsSync d found) (trace (snd (run (downloadImage cfg args) n f))) ->
  resolvedDir cfg args = Some d.
Proof.
  intros Hin.
  destruct (downloadImage_shape args n f)
    as [Ht Hf | u Ht Hf | u td cf msg Hres d' Ht Hf Hex Hr
        | u td cf t found' Hres d' Ht Hex [urls [n1 [f1 Hloop]]]].
  - rewrite Ht in Hin. destruct Hin.
  - rewrite Ht in Hin. destruct Hin as [Hin | []]. discriminate.
  - unfold resolvedDir. rewrite Hres. fold d'. rewrite Ht in Hin.
    cbn in Hin.
    repeat (destruct Hin as [Hin | Hin]; try discriminate);
      try contradiction.
    now injection Hin as -> _.
  - unfold resolvedDir. rewrite Hres. fold d'. rewrite Ht in Hin.
    apply in_app_or in Hin. destruct Hin as [Hin | Hin].
    { cbn in Hin.
      repeat (destruct Hin as [Hin | Hin]; try discriminate);
        try contradiction.
      now injection Hin as -> _. }
    apply in_app_or in Hin. destruct Hin as [Hin | Hin].
    { destruct found'; cbn in Hin; [destruct Hin|].
      destruct Hin as [Hin | []]. discriminate. }
    assert (Hev : forallb loop_event t = true)
      by (rewrite Hloop; apply downloadAll_events).
    apply (loop_events_only _ _ Hev) in Hin. discriminate.
Qed.

Lemma write_paths_app (a b : list event) :
  write_paths (a ++ b) = (write_paths a ++ write_paths b)%list.
Proof. apply flat_map_app. Qed.

(** The loop writes artifact [i], [i + 1], ... under the names that
    [filename_of] gives them, joined onto [targetDir], until it ends or
    fails. *)
Lemma downloadLoop_write_paths task_id d cf imageUrls :
  forall i acc n f,
  exists k,
    (k <= List.length imageUrls)%nat
    /\ write_paths
         (trace (snd (downloadLoop task_id d cf imageUrls i acc
                                   (mkSt n f []))))
       = map (fun j => path.join d (filename_of task_id cf j)) (seq i k).
Proof.
  induction imageUrls as [|url rest IH]; intros i acc n f;
    cbn [downloadLoop].
  - exists 0%nat. split; [reflexivity|reflexivity].
  - unfold bind at 1, do_axios_get. cbn [net fs trace app].
    destruct (axios_get n url) as [[data | e] n1].
    2:{ exists 0%nat. cbn. split; [lia | reflexivity]. }
    unfold bind at 1, do_writeFile, emit. cbn [net fs trace app].
    destruct (fs_writeFile f _ data) as [f1 | msg].
    2:{ exists 1%nat. cbn. split; [lia | reflexivity]. }
    rewrite framed_downloadLoop. unfold rebase. cbn [snd trace].
    destruct (IH (S i) (acc ++ [JObj [("url", url);
                  ("saved_to",
                   JStr (path.join d (filename_of task_id cf i)))]])%list
                 n1 f1) as [k [Hk Hw]].
    exists (S k). split; [cbn; lia|].
    rewrite write_paths_app, Hw. reflexivity.
Qed.


Lemma filename_of_default task_id cf (i : nat) :
  i <> 0%nat -> filename_of task_id cf i = default_name task_id i.
Proof.
  intros Hi. unfold filename_of, default_name.
  destruct cf as [name|]; [|reflexivity].
  destruct i; [congruence | reflexivity].
Qed.

Lemma default_name_inj task_id (i j : nat) :
  default_name task_id i = default_name task_id j -> i = j.
Proof.
  unfold default_name. intros E.
  apply StringFacts.append_inv_head in E. cbn in E. injection E as E.
  apply StringFacts.append_inv_tail in E.
  now apply StringFacts.of_nat_inj.
Qed.

(** ** Runs that save every artifact *)

Lemma api_error_handler_run (e : exn) (s : St N F) :
  api_error_handler e s
  = (if isAxiosError e then Ret (mkResult (api_error_text e) true)
     else Throw e, s).
Proof. destruct e; reflexivity. Qed.

Lemma fetched_urls_app (a b : list event) :
  fetched_urls (a ++ b) = (fetched_urls a ++ fetched_urls b)%list.
Proof. apply flat_map_app. Qed.

Lemma no_fs_failure_app (a b : list event) :
  no_fs_failure (a ++ b) = no_fs_failure a && no_fs_failure b.
Proof. apply forallb_app. Qed.






Lemma mapM_getp_readable (k : string) (items : list jsval) (s : St N F) :
  forallb readable items = true ->
  mapM (fun result => getp result k) items s
  = (Ret (map (fun result => field result k) items), s).
Proof.
  induction items as [|x items IH]; cbn [forallb mapM map]; [reflexivity|].
  intros H. apply andb_true_iff in H as [Hx Hi].
  unfold bind at 1. rewrite getp_readable by exact Hx.
  unfold bind at 1. rewrite IH by exact Hi. reflexivity.
Qed.




(** C4 (amended). In a batch of [n] artifacts the override, when there
    is one, names artifact 0 only, and every other artifact [i] is named
    [{task_id}_{i}.png]; the [n] names are pairwise distinct provided the
    override is none of the names [{task_id}_{i}.png] with [1 <= i < n]. *)
Theorem batch_filenames_distinct (task_id : string)
    (customFilename : option string) (n : nat) :
  (forall i, (1 <= i < n)%nat ->
             customFilename <> Some (default_name task_id i)) ->
  NoDup (map (filename_of task_id customFilename) (seq 0 n))
  /\ (forall i, i <> 0%nat ->
                filename_of task_id customFilename i
                = default_name task_id i)
  /\ (forall name, customFilename = Some name -> name <> "" ->
                   filename_of task_id customFilename 0 = name).
Proof.
  intros Hfree. split; [|split].
  - destruct n as [|m]; [constructor|].
    cbn [seq map]. constructor.
    + rewrite in_map_iff. intros [i [Ei Hi]]. apply in_seq in Hi.
      rewrite filename_of_default in Ei by lia.
      unfold filename_of in Ei.
      destruct customFilename as [name|].
      * destruct (Nat.eqb 0 0 && negb (String.eqb name "")).
        -- apply (Hfree i); [lia | now rewrite Ei].
        -- apply default_name_inj in Ei. lia.
      * apply default_name_inj in Ei. lia.
    + rewrite (map_ext_in _ (default_name task_id)).
      * apply Injective_map_NoDup; [|apply seq_NoDup].
        intros i j. apply default_name_inj.
      * intros i Hi. apply in_seq in Hi. apply filename_of_default. lia.
  - intros i Hi. now apply filename_of_default.
  - intros name -> Hne. unfold filename_of. cbn [Nat.eqb andb].
    replace (String.eqb name "") with false
      by (symmetry; now apply String.eqb_neq).
    reflexivity.
Qed.



End ToolFacts.

(** C8. The resolution is a function of [save_path], [base_dir],
    [SAVE_DIR] and [WORK_DIR] alone.  Two calls that agree on these, whatever
    else differs (the task, the other arguments, the network, the contents of
    the file system, even the host), compute the same [targetDir] and the
    same file name override (or the same early return), hence the same
    resolved absolute directory; and the directory that either run hands to
    [fs.existsSync] is that one. *)
Theorem resolution_is_deterministic
    {N1 F1 : Type} {host1 : Host N1 F1} {N2 F2 : Type} {host2 : Host N2 F2}
    (cfg1 cfg2 : Config) (args1 args2 : jsval)
    (n1 : N1) (f1 : F1) (n2 : N2) (f2 : F2) :
  SAVE_DIR cfg1 = SAVE_DIR cfg2 ->
  WORK_DIR cfg1 = WORK_DIR cfg2 ->
  field args1 "save_path" = field args2 "save_path" ->
  field args1 "base_dir" = field args2 "base_dir" ->
  resolveTarget cfg1 args1 = resolveTarget cfg2 args2
  /\ resolvedDir cfg1 args1 = resolvedDir cfg2 args2
  /\ (forall d1 found1 d2 found2,
        In (EvExistsSync d1 found1)
           (trace (snd (run (downloadImage cfg1 args1) n1 f1))) ->
        In (EvExistsSync d2 found2)
           (trace (snd (run (downloadImage cfg2 args2) n2 f2))) ->
        d1 = d2).
Proof.
  intros Hsave Hwork Hsp Hbd.
  assert (Hres : resolveTarget cfg1 args1 = resolveTarget cfg2 args2).
  { unfold resolveTarget. now rewrite Hsp, Hsave. }
  assert (Hdir : resolvedDir cfg1 args1 = resolvedDir cfg2 args2).
  { unfold resolvedDir, baseDir_of. now rewrite Hres, Hbd, Hwork. }
  split; [exact Hres|]. split; [exact Hdir|].
  intros d1 found1 d2 found2 H1 H2.
  apply existsSync_event_dir in H1. apply existsSync_event_dir in H2.
  congruence.
Qed.


(** ** The properties on the example calls *)

Module Checks.
Import Demo Examples.

(** C1, as stated, fails: the bare file name [report.png] with
    [base_dir = /home/u/work] is not resolved against [base_dir]; the call
    is refused by the validation, nothing is fetched and nothing is saved. *)
Lemma bare_filename_not_resolved :
  isValidTaskIdArgs args_bare = false
  /\ resolvedDir cfg args_bare = None
  /\ run (downloadImage cfg args_bare) net_two disk
     = (Throw (McpError InvalidParams "Invalid task ID parameter"),
        mkSt net_two disk []).
Proof. repeat split. Qed.

Lemma bare_filename_is_rejected_witness :
  field args_bare "save_path" = JStr "report.png"
  /\ JsString.includes "report.png" "/" = false
  /\ isValidTaskIdArgs args_bare = false
  /\ run (downloadImage cfg args_bare) net_two disk
     = (Throw (McpError InvalidParams "Invalid task ID parameter"),
        mkSt net_two disk []).
Proof.
  split; [reflexivity|]. split; [reflexivity|].
  destruct (bare_filename_is_rejected cfg args_bare "report.png" net_two disk)
    as [H1 [H2 _]]; [reflexivity | discriminate | reflexivity |].
  split; [exact H1 | exact H2].
Defined.

(** C2, as stated, fails: for a task that is still [RUNNING] the result is
    flagged as an error. *)
Lemma running_task_is_error_flagged :
  exists r s,
    run (downloadImage cfg args_pic) net_running disk = (Ret r, s)
    /\ isError r = true.
Proof. eexists. eexists. split; reflexivity. Qed.

Lemma download_not_succeeded_witness :
  run (downloadImage cfg args_pic) net_running disk
  = (Ret (mkResult ("Task not completed or failed: " ++
                    JSON_stringify2 (status "RUNNING" [])) true),
     mkSt net_running disk [EvApiGet "/tasks/t1"])
  /\ run (SrcIndex.downloadImage cfg args_pic) net_running disk
     = (Ret (mkResult ("Task not completed or failed: " ++
                       JSON_stringify2 (status "RUNNING" [])) true),
        mkSt net_running disk [EvApiGet "/tasks/t1"]).
Proof.
  destruct (download_not_succeeded_is_error_flagged cfg args_pic
              (status "RUNNING" []) net_running net_running disk)
    as [H1 H2]; try reflexivity.
  split; [apply H1 | apply H2]; reflexivity.
Defined.

(** C3, the empty list: the [No image URL found] result. *)
Lemma empty_results_example :
  run (downloadImage cfg args_pic) net_none disk
  = (Ret (mkResult "No image URL found" true),
     mkSt net_none disk [EvApiGet "/tasks/t1"]).
Proof. reflexivity. Qed.

Lemma download_results_absent_witness :
  run (downloadImage cfg args_pic) net_without_results disk
  = (Throw (TypeError "Cannot read properties of undefined (reading 'map')"),
     mkSt net_without_results disk [EvApiGet "/tasks/t1"])
  /\ run (SrcIndex.downloadImage cfg args_pic) net_without_results disk
     = (Throw (TypeError
                 "Cannot read properties of undefined (reading 'map')"),
        mkSt net_without_results disk [EvApiGet "/tasks/t1"]).
Proof.
  destruct (download_results_absent_throws cfg args_pic
              status_without_results net_without_results
              net_without_results disk)
    as [H1 H2]; try reflexivity.
  split; [apply H1 | apply H2]; reflexivity.
Defined.

(** C4, as stated, fails: with [task_id = abc] and the accepted
    [save_path = /tmp/abc_1.png], artifacts 0 and 1 get the same name and
    the second file replaces the first. *)
Lemma override_clashes_with_default_name :
  isValidTaskIdArgs args_clash = true
  /\ resolveTarget cfg args_clash = inr ("/tmp", Some "abc_1.png")
  /\ filename_of "abc" (Some "abc_1.png") 0
     = filename_of "abc" (Some "abc_1.png") 1
  /\ ~ NoDup (map (filename_of "abc" (Some "abc_1.png")) (seq 0 2))
  /\ write_paths (trace (snd (run (downloadImage cfg args_clash) net_two disk)))
     = ["/tmp/abc_1.png"; "/tmp/abc_1.png"].
Proof.
  repeat split.
  intros H. inversion H as [|x l Hin _]. apply Hin. now left.
Qed.

Lemma batch_filenames_distinct_witness :
  NoDup (map (filename_of "abc" (Some "pic.png")) (seq 0 3)).
Proof.
  apply (batch_filenames_distinct "abc" (Some "pic.png") 3).
  intros i Hi E. injection E as E.
  destruct i as [|[|[|i]]]; [lia | discriminate E | discriminate E | lia].
Defined.



Lemma directory_ready_before_artifact_fetch_witness :
  (exists msg,
      fst (run (downloadImage cfg args_new_dir) net_two disk_readonly)
      = Ret (mkResult ("Failed to create directory: " ++ msg) true))
  /\ existsb is_artifact_fetch
       (trace (snd (run (downloadImage cfg args_new_dir) net_two
                        disk_readonly)))
     = false
  /\ fs (snd (run (downloadImage cfg args_new_dir) net_two disk_readonly))
     = disk_readonly.
Proof.
  apply (proj2 (directory_ready_before_artifact_fetch cfg args_new_dir
                  net_two disk_readonly) "/tmp/new").
  vm_compute. do 3 right. left. reflexivity.
Defined.

Lemma mkdir_failure_escapes_src_index_witness :
  run (SrcIndex.downloadImage cfg args_new_dir) net_two disk_readonly
  = (Throw (SystemError "EACCES: permission denied, mkdir '/tmp/new'"),
     mkSt net_two disk_readonly
       [EvApiGet "/tasks/abc";
        EvExistsSync "/tmp/new" false;
        EvMkdirSync "/tmp/new" false]).
Proof.
  apply (mkdir_failure_escapes_src_index cfg args_new_dir net_two net_two
           disk_readonly [JStr "http://img/0"; JStr "http://img/1"]
           "EACCES: permission denied, mkdir '/tmp/new'");
    reflexivity.
Defined.



Lemma resolution_is_deterministic_witness :
  resolveTarget cfg args_pic = resolveTarget cfg args_pic_other_task
  /\ resolvedDir cfg args_pic = resolvedDir cfg args_pic_other_task.
Proof.
  destruct (resolution_is_deterministic cfg cfg args_pic args_pic_other_task
              net_two disk net_running disk_readonly
              eq_refl eq_refl eq_refl eq_refl) as [H1 [H2 _]].
  split; [exact H1 | exact H2].
Defined.

Lemma base_dir_is_irrelevant_witness :
  resolvedDir cfg args_pic = resolvedDir cfg args_pic_other_base
  /\ fst (run (downloadImage cfg args_pic) net_two disk)
     = fst (run (downloadImage cfg args_pic_other_base) net_two disk).
Proof.
  destruct (base_dir_is_irrelevant cfg args_pic args_pic_other_base
              net_two disk eq_refl eq_refl eq_refl eq_refl eq_refl)
    as [_ [H2 [H3 _]]].
  split; [exact H2 | exact H3].
Defined.

Lemma existing_entry_skips_directory_creation_witness :
  fs_existsSync disk_with_file "/tmp/notes" = true
  /\ run (downloadImage cfg args_notes) net_two disk_with_file
     = (Throw (SystemError
                 "ENOTDIR: not a directory, open '/tmp/notes/abc_0.png'"),
        mkSt net_two disk_with_file
          [EvApiGet "/tasks/abc";
           EvConsoleError
             "Resolving path: /tmp/notes against base: /home/u/work => /tmp/notes";
           EvExistsSync "/tmp/notes" true;
           EvAxiosGet (JStr "http://img/0");
           EvWriteFile "/tmp/notes/abc_0.png" "PNG" false]).
Proof.
  split; [reflexivity|].
  destruct (existing_entry_skips_directory_creation cfg args_notes net_two
              disk_with_file "/tmp/notes" None)
    as [_ [_ H3]]; [reflexivity | reflexivity |].
  apply (H3 (JStr "http://img/0") [JStr "http://img/1"] net_two "PNG" net_two
            "ENOTDIR: not a directory, open '/tmp/notes/abc_0.png'");
    reflexivity.
Defined.

End Checks.


(** * Further properties of the server *)

(** ** The validators *)

Lemma typeof_string (v : jsval) :
  String.eqb (typeof v) "string" = true <-> exists s, v = JStr s.
Proof.
  split.
  - destruct v; try discriminate. intros _. now exists s.
  - intros [s ->]. reflexivity.
Qed.

Lemma typeof_number (v : jsval) :
  String.eqb (typeof v) "number" = true <-> exists x, v = JNum x.
Proof.
  split.
  - destruct v; try discriminate. intros _. now exists n.
  - intros [x ->]. reflexivity.
Qed.

Lemma optional_string (v : jsval) :
  is_undefined v || String.eqb (typeof v) "string" = true
  <-> v = JUndefined \/ exists s, v = JStr s.
Proof.
  split.
  - destruct v; try discriminate; intros _; [now left | right; now exists s].
  - intros [-> | [s ->]]; reflexivity.
Qed.

Lemma optional_number (v : jsval) :
  is_undefined v || String.eqb (typeof v) "number" = true
  <-> v = JUndefined \/ exists x, v = JNum x.
Proof.
  split.
  - destruct v; try discriminate; intros _; [now left | right; now exists n].
  - intros [-> | [x ->]]; reflexivity.
Qed.

Lemma field_string_object (args : jsval) (k s : string) :
  field args k = JStr s -> exists fields, args = JObj fields.
Proof. destruct args; try discriminate. intros _. now exists fields. Qed.

(** X1. The type guard [isValidTaskIdArgs] is sound and complete: it accepts
    exactly the objects whose [task_id] is a string, whose [save_path] is
    absent, the empty string or a string that starts with a slash, and whose
    [base_dir] is absent or a string. *)
Theorem isValidTaskIdArgs_accepts (args : jsval) :
  isValidTaskIdArgs args = true
  <-> (exists fields, args = JObj fields)
      /\ (exists task_id, field args "task_id" = JStr task_id)
      /\ (field args "save_path" = JUndefined
          \/ field args "save_path" = JStr ""
          \/ exists rest, field args "save_path" = JStr (String "/" rest))
      /\ (field args "base_dir" = JUndefined
          \/ exists base_dir, field args "base_dir" = JStr base_dir).
Proof.
  unfold isValidTaskIdArgs. rewrite !andb_true_iff.
  rewrite typeof_string, optional_string.
  split.
  - intros [[[[_ _] [tid Htid]] Hsp] Hbd].
    split; [exact (field_string_object _ _ _ Htid)|].
    split; [now exists tid|]. split; [|exact Hbd].
    apply orb_true_iff in Hsp as [Hsp | Hsp].
    + left. now destruct (field args "save_path").
    + apply andb_true_iff in Hsp as [Hty Hsp].
      apply typeof_string in Hty as [s Hs]. rewrite Hs in Hsp |- *.
      cbn [str_of is_string] in Hsp.
      apply orb_true_iff in Hsp as [Hsp | Hsp].
      * right. right. destruct (PathFacts.isAbsolute_inv _ Hsp) as [r ->].
        now exists r.
      * right. left. apply String.eqb_eq in Hsp. now subst.
  - intros [[fields ->] [[tid Htid] [Hsp Hbd]]].
    split; [split; [split; [split; reflexivity | now exists tid]|]
           | exact Hbd].
    destruct Hsp as [-> | [-> | [r ->]]]; reflexivity.
Qed.

(** X2. The type guard [isValidGenerateImageArgs] accepts exactly the
    objects whose [prompt] is a string (the empty one included), whose
    [size] is absent or a string, and whose [seed] and [steps] are absent or
    numbers. *)
Theorem isValidGenerateImageArgs_accepts (args : jsval) :
  isValidGenerateImageArgs args = true
  <-> (exists fields, args = JObj fields)
      /\ (exists prompt, field args "prompt" = JStr prompt)
      /\ (field args "size" = JUndefined
          \/ exists size, field args "size" = JStr size)
      /\ (field args "seed" = JUndefined
          \/ exists seed, field args "seed" = JNum seed)
      /\ (field args "steps" = JUndefined
          \/ exists steps, field args "steps" = JNum steps).
Proof.
  unfold isValidGenerateImageArgs. rewrite !andb_true_iff.
  rewrite typeof_string, optional_string, !optional_number.
  split.
  - intros [[[[[_ _] [p Hp]] Hsize] Hseed] Hsteps].
    split; [exact (field_string_object _ _ _ Hp)|].
    split; [now exists p|]. tauto.
  - intros [[fields ->] [[p Hp] [Hsize [Hseed Hsteps]]]].
    split; [split; [split; [split; [split; reflexivity | now exists p]|]|]|];
      assumption.
Qed.

Lemma isValidTaskIdArgs_refines_src_index_aux (args : jsval) :
  isValidTaskIdArgs args = true ->
  truthy (field args "save_path") = true ->
  path.isAbsolute (str_of (field args "save_path")) = true.
Proof.
  unfold isValidTaskIdArgs. rewrite !andb_true_iff.
  intros [[_ Hsp] _] Ht.
  apply orb_true_iff in Hsp as [Hsp | Hsp].
  - now destruct (field args "save_path").
  - apply andb_true_iff in Hsp as [_ Hsp].
    apply orb_true_iff in Hsp as [Hsp | Hsp]; [exact Hsp|].
    destruct (field args "save_path"); try discriminate.
    cbn [is_string] in Hsp. cbn [truthy] in Ht. now rewrite Hsp in Ht.
Qed.

(** X3. The validator of the variant with [base_dir] is the one of
    [src/index.ts] with two more conditions: it accepts a call exactly when
    the earlier one does, [save_path] is absent, empty or absolute, and
    [base_dir] is absent or a string. *)
Theorem isValidTaskIdArgs_refines_src_index (args : jsval) :
  isValidTaskIdArgs args = true
  <-> SrcIndex.isValidTaskIdArgs args = true
      /\ (truthy (field args "save_path") = true ->
          path.isAbsolute (str_of (field args "save_path")) = true)
      /\ (field args "base_dir" = JUndefined
          \/ exists base_dir, field args "base_dir" = JStr base_dir).
Proof.
  unfold isValidTaskIdArgs, SrcIndex.isValidTaskIdArgs.
  rewrite !andb_true_iff, optional_string.
  split.
  - intros [[[[H1 H2] H3] Hsp] Hbd].
    split; [|split; [|exact Hbd]].
    + repeat split; try assumption.
      apply orb_true_iff in Hsp as [Hsp | Hsp]; apply orb_true_iff;
        [now left | right].
      now apply andb_true_iff in Hsp as [Hty _].
    + intros Ht. apply orb_true_iff in Hsp as [Hsp | Hsp].
      * now destruct (field args "save_path").
      * apply andb_true_iff in Hsp as [_ Hsp].
        apply orb_true_iff in Hsp as [Hsp | Hsp]; [exact Hsp|].
        destruct (field args "save_path"); try discriminate.
        cbn [is_string] in Hsp. cbn [truthy] in Ht. now rewrite Hsp in Ht.
  - intros [[[[H1 H2] H3] Hsp] [Habs Hbd]].
    repeat split; try assumption.
    apply orb_true_iff in Hsp as [Hsp | Hsp]; apply orb_true_iff;
      [now left | right].
    rewrite Hsp. cbn [andb].
    apply typeof_string in Hsp as [s Hs]. rewrite Hs in Habs |- *.
    cbn [truthy str_of is_string] in Habs |- *.
    destruct (String.eqb s ""); [apply orb_true_r|].
    rewrite Habs; reflexivity.
Qed.

(** ** Outcomes of the tools *)

Section ExtraFacts.

Context {N F : Type} {host : Host N F}.
Variable cfg : Config.

(** X4. An accepted [checkTaskStatus] call performs one action, the query
    [GET /tasks/{task_id}], and leaves the file system alone.  It returns the
    body of the answer, printed with [JSON.stringify(_, null, 2)] and not
    flagged; an axios error becomes an error-flagged result that carries the
    body of the error response when there is one and the message of the
    error otherwise; any other error leaves the tool as an exception.  This
    holds of both variants, each for the calls that its own validator
    accepts; a call that the validator refuses is answered with
    [InvalidParams] and without any action. *)
Theorem check_task_status_outcome (args : jsval) (n : N) (f : F) :
  let answer := apiClient_get n (status_url args) in
  let outcome :=
    (match fst answer with
     | inl data => Ret (mkResult (JSON_stringify2 data) false)
     | inr e => if isAxiosError e
                then Ret (mkResult (api_error_text e) true)
                else Throw e
     end,
     mkSt (snd answer) f [EvApiGet (status_url args)]) in
  let refused :=
    (Throw (McpError InvalidParams "Invalid task ID parameter"),
     mkSt n f []) in
  run (checkTaskStatus args) n f
  = (if isValidTaskIdArgs args then outcome else refused)
  /\ run (SrcIndex.checkTaskStatus args) n f
     = (if SrcIndex.isValidTaskIdArgs args then outcome else refused).
Proof.
  intros answer outcome refused. subst answer outcome refused.
  unfold run, checkTaskStatus, SrcIndex.checkTaskStatus.
  split.
  - destruct (isValidTaskIdArgs args); cbn [negb]; [|reflexivity].
    unfold try_catch, bind, do_apiClient_get, status_url.
    cbn [net fs trace app].
    destruct (apiClient_get n _) as [[data | e] n']; cbn [fst snd];
      [reflexivity|].
    apply api_error_handler_run.
  - destruct (SrcIndex.isValidTaskIdArgs args); cbn [negb]; [|reflexivity].
    unfold try_catch, bind, do_apiClient_get, status_url.
    cbn [net fs trace app].
    destruct (apiClient_get n _) as [[data | e] n']; cbn [fst snd];
      [reflexivity|].
    apply api_error_handler_run.
Qed.

(** X5. [checkTaskStatus] shares the validator of [downloadImage]: a call
    that carries a [save_path] which is a non-empty relative path is refused
    with [InvalidParams] before the status is queried, although the tool
    never reads [save_path]. *)
Theorem check_task_status_refuses_relative_save_path
    (args : jsval) (save_path : string) (n : N) (f : F) :
  field args "save_path" = JStr save_path ->
  save_path <> "" ->
  path.isAbsolute save_path = false ->
  run (checkTaskStatus args) n f
  = (Throw (McpError InvalidParams "Invalid task ID parameter"), mkSt n f []).
Proof.
  intros Hsp Hne Hrel.
  assert (Hinv : isValidTaskIdArgs args = false).
  { unfold isValidTaskIdArgs. rewrite Hsp.
    cbn [is_undefined typeof str_of is_string orb]. rewrite Hrel.
    replace (String.eqb save_path "") with false
      by (symmetry; now apply String.eqb_neq).
    cbn. now rewrite !andb_false_r. }
  unfold run, checkTaskStatus. now rewrite Hinv.
Qed.

(** X6. An accepted [generateImage] call returns the body of the answer to
    its one submission, printed with [JSON.stringify(_, null, 2)] and not
    flagged; an axios error becomes an error-flagged result with the error
    body or message; any other error leaves the tool as an exception.  In all
    three cases the submission is the only action. *)
Theorem generate_image_outcome (args : jsval) (n : N) (f : F) :
  isValidGenerateImageArgs args = true ->
  let out := run (generateImage cfg args) n f in
  let n0 :=
    if is_undefined (field args "seed") then snd (Math_random n) else n in
  exists body,
    let answer :=
      apiClient_post n0 "/services/aigc/text2image/image-synthesis" body in
    snd out
    = mkSt (snd answer) f
        [EvApiPost "/services/aigc/text2image/image-synthesis" body]
    /\ (forall data, fst answer = inl data ->
                     fst out = Ret (mkResult (JSON_stringify2 data) false))
    /\ (forall e, fst answer = inr e -> isAxiosError e = true ->
                  fst out = Ret (mkResult (api_error_text e) true))
    /\ (forall e, fst answer = inr e -> isAxiosError e = false ->
                  fst out = Throw e).
Proof.
  intros Hv out n0. subst out n0.
  unfold run, generateImage. rewrite Hv. cbn [negb].
  unfold try_catch, bind, do_Math_random, do_apiClient_post, ret.
  destruct (is_undefined (field args "seed")); cbn [negb net fs trace].
  - destruct (Math_random n) as [k n0]. cbn [net fs trace app snd].
    match goal with
    | |- context [apiClient_post n0 ?u ?b] => exists b
    end.
    cbv zeta.
    destruct (apiClient_post n0 _ _) as [[data | e] n'];
      cbn [fst snd]; [|rewrite api_error_handler_run; cbn [fst snd]];
      (split; [reflexivity|]); (split; [|split]); intros x E;
      try discriminate E; injection E as ->; try intros ->; reflexivity.
  - match goal with
    | |- context [apiClient_post n ?u ?b] => exists b
    end.
    cbv zeta. cbn [app].
    destruct (apiClient_post n _ _) as [[data | e] n'];
      cbn [fst snd]; [|rewrite api_error_handler_run; cbn [fst snd]];
      (split; [reflexivity|]); (split; [|split]); intros x E;
      try discriminate E; injection E as ->; try intros ->; reflexivity.
Qed.

Lemma fetchImageUrls_fault task_id n f t e n' :
  apiClient_get n ("/tasks/" ++ task_id) = (inr e, n') ->
  fetchImageUrls task_id (mkSt n f t)
  = (Throw e, mkSt n' f (t ++ [EvApiGet ("/tasks/" ++ task_id)])).
Proof.
  intros Hget. unfold fetchImageUrls, bind at 1, do_apiClient_get.
  cbn [net fs trace]. now rewrite Hget.
Qed.

(** X7. When the status query of [downloadImage] fails, the query is the
    only action of the call: an axios error gives the error-flagged result
    with the error body or message, any other error leaves the tool as an
    exception; the file system is not touched.  Both variants do so. *)
Theorem download_status_query_fault
    (args : jsval) (n n' : N) (f : F) (e : exn) :
  apiClient_get n (status_url args) = (inr e, n') ->
  let outcome :=
    (if isAxiosError e then Ret (mkResult (api_error_text e) true)
     else Throw e,
     mkSt n' f [EvApiGet (status_url args)]) in
  (isValidTaskIdArgs args = true ->
   run (downloadImage cfg args) n f = outcome)
  /\ (SrcIndex.isValidTaskIdArgs args = true ->
      run (SrcIndex.downloadImage cfg args) n f = outcome).
Proof.
  intros Hget outcome. split; intros Hv.
  - unfold run, downloadImage. rewrite Hv. cbn [negb].
    unfold try_catch, bind.
    rewrite (fetchImageUrls_fault _ _ _ _ _ _ Hget).
    apply api_error_handler_run.
  - unfold run, SrcIndex.downloadImage. rewrite Hv. cbn [negb].
    unfold try_catch, bind.
    rewrite (fetchImageUrls_fault _ _ _ _ _ _ Hget).
    apply api_error_handler_run.
Qed.

(** ** The download loop *)

(** ** The download loop *)

Lemma downloadAll_trace task_id d cf imageUrls (s : St N F) :
  trace (snd (downloadAll task_id d cf imageUrls s))
  = trace (snd (downloadLoop task_id d cf imageUrls 0 [] s)).
Proof.
  unfold downloadAll, bind.
  destruct (downloadLoop _ _ _ _ _ _ s) as [[r | e] s']; reflexivity.
Qed.

Lemma rebase_nil {A} (out : res A * St N F) : rebase [] out = out.
Proof. destruct out as [r [n f t]]. reflexivity. Qed.

(** The loop over [done ++ rest], when every artifact of [done] can be
    fetched and written, is the loop over [rest] from where that leaves the
    network and the file system. *)
Lemma downloadLoop_after_saving task_id d cf done :
  forall i acc n f n1 f1 rest,
    after_saving task_id d cf i done n f = Some (n1, f1) ->
    exists t,
      fetched_urls t = done
      /\ write_paths t
         = map (fun j => path.join d (filename_of task_id cf j))
               (seq i (List.length done))
      /\ no_fs_failure t = true
      /\ downloadLoop task_id d cf (done ++ rest) i acc (mkSt n f [])
         = rebase t
             (downloadLoop task_id d cf rest (i + List.length done)
                (acc ++ download_entries task_id d cf i done)
                (mkSt n1 f1 [])).
Proof.
  induction done as [|url done IH]; intros i acc n f n1 f1 rest;
    cbn [after_saving].
  - intros E. injection E as <- <-. exists [].
    cbn [app List.length download_entries].
    rewrite Nat.add_0_r, app_nil_r, rebase_nil. repeat split; reflexivity.
  - destruct (axios_get n url) as [[data | e] n'] eqn:Hget; [|discriminate].
    destruct (fs_writeFile f _ data) as [f' | msg] eqn:Hw; [|discriminate].
    intros Hrest.
    destruct (IH (S i) (acc ++ [download_entry task_id d cf i url])%list
                 n' f' n1 f1 rest Hrest) as [t [Hu [Hp [Hok Hrun]]]].
    exists ([EvAxiosGet url;
             EvWriteFile (path.join d (filename_of task_id cf i)) data true]
            ++ t)%list.
    split; [|split; [|split]].
    + rewrite fetched_urls_app, Hu. reflexivity.
    + rewrite write_paths_app, Hp. reflexivity.
    + rewrite no_fs_failure_app, Hok. reflexivity.
    + cbn [app downloadLoop].
      unfold bind at 1, do_axios_get. cbn [net fs trace app]. rewrite Hget.
      unfold bind at 1, do_writeFile. cbn [net fs trace app]. rewrite Hw.
      rewrite framed_downloadLoop.
      unfold download_entry in Hrun. rewrite Hrun, rebase_rebase.
      cbn [List.length download_entries app]. unfold download_entry.
      rewrite <- app_assoc, Nat.add_succ_r. reflexivity.
Qed.

(** From the call to the loop: what a run does before the first artifact,
    when the task has succeeded and the directory is there or can be
    created. *)
Lemma downloadImage_loop_entry args n n0 f f0 statusData td cf :
  let task_id := str_of (field args "task_id") in
  let d := absoluteTargetDir_of (baseDir_of cfg args) td in
  isValidTaskIdArgs args = true ->
  resolveTarget cfg args = inr (td, cf) ->
  apiClient_get n (status_url args) = (inl statusData, n0) ->
  is_string (field (field statusData "output") "task_status") "SUCCEEDED"
    = true ->
  forallb readable (items_of (field (field statusData "output") "results"))
    = true ->
  named_urls statusData <> [] ->
  with_directory f d = Some f0 ->
  exists pre,
    fetched_urls pre = [] /\ write_paths pre = []
    /\ no_fs_failure pre = true
    /\ run (downloadImage cfg args) n f
       = try_catch (downloadAll task_id d cf (named_urls statusData))
                   api_error_handler (mkSt n0 f0 pre).
Proof.
  intros task_id d Hv Hres Hget Hs Hread Hne Hdir.
  unfold run, downloadImage. rewrite Hv. cbn [negb].
  unfold try_catch at 1, bind at 1. fold task_id.
  unfold status_url in Hget. fold task_id in Hget.
  rewrite (fetchImageUrls_succeeded _ _ _ _ _ _ Hget Hs). cbv zeta.
  unfold named_urls in *.
  destruct (field (field statusData "output") "results")
    as [| | b | x | str | items | fields]; cbn [items_of map] in *;
    try congruence.
  unfold array_map. rewrite mapM_getp_readable by exact Hread.
  destruct (map (fun result => field result "url") items) as [|u urls] eqn:Hm;
    [congruence|].
  cbn [List.length Nat.eqb].
  rewrite (saveImages_run cfg _ _ _ _ _ _ _ Hres). fold task_id d.
  unfold with_directory in Hdir.
  destruct (fs_existsSync f d).
  - injection Hdir as <-. eexists. split; [|split; [|split]];
      [| | |unfold try_catch; reflexivity]; reflexivity.
  - destruct (fs_mkdirSync f d) as [f' | msg]; [|discriminate].
    injection Hdir as <-. eexists. split; [|split; [|split]];
      [| | |unfold try_catch; reflexivity]; reflexivity.
Qed.

(** X8. [downloadImage] stops at the first artifact that fails.  Let the
    task have succeeded, let its payload name the URLs
    [done ++ url :: rest], let the directory be there or be created, and let
    every artifact of [done] be fetched and written.  If the fetch of [url]
    then fails, the call ends with the outcome of that error (the
    error-flagged result for an axios error, the exception otherwise); if
    the fetch succeeds and the write fails, the system error leaves the tool
    as an exception.  In both cases the files of [done] stay written, [url]
    is the last URL fetched, and nothing of [rest] is fetched or
    written. *)
Theorem download_stops_at_first_failure
    (args statusData : jsval) (n n0 n1 n2 : N) (f f0 f1 : F)
    (targetDir : string) (customFilename : option string)
    (done rest : list jsval) (url : jsval) :
  let task_id := str_of (field args "task_id") in
  let d := absoluteTargetDir_of (baseDir_of cfg args) targetDir in
  let savePath := fun i =>
    path.join d (filename_of task_id customFilename i) in
  let out := run (downloadImage cfg args) n f in
  isValidTaskIdArgs args = true ->
  resolveTarget cfg args = inr (targetDir, customFilename) ->
  apiClient_get n (status_url args) = (inl statusData, n0) ->
  is_string (field (field statusData "output") "task_status") "SUCCEEDED"
    = true ->
  forallb readable (items_of (field (field statusData "output") "results"))
    = true ->
  named_urls statusData = (done ++ url :: rest)%list ->
  with_directory f d = Some f0 ->
  after_saving task_id d customFilename 0 done n0 f0 = Some (n1, f1) ->
  (forall e,
      axios_get n1 url = (inr e, n2) ->
      fst out = (if isAxiosError e
                 then Ret (mkResult (api_error_text e) true)
                 else Throw e)
      /\ net (snd out) = n2 /\ fs (snd out) = f1
      /\ fetched_urls (trace (snd out)) = (done ++ [url])%list
      /\ write_paths (trace (snd out))
         = map savePath (seq 0 (List.length done))
      /\ no_fs_failure (trace (snd out)) = true)
  /\ (forall data msg,
        axios_get n1 url = (inl data, n2) ->
        fs_writeFile f1 (savePath (List.length done)) data = inr msg ->
        fst out = Throw (SystemError msg)
        /\ net (snd out) = n2 /\ fs (snd out) = f1
        /\ fetched_urls (trace (snd out)) = (done ++ [url])%list
        /\ write_paths (trace (snd out))
           = map savePath (seq 0 (S (List.length done)))
        /\ exists t,
             trace (snd out)
             = (t ++ [EvWriteFile (savePath (List.length done)) data false])%list
             /\ no_fs_failure t = true).
Proof.
  intros task_id d savePath out Hv Hres Hget Hs Hread Hurls Hdir Hdone.
  assert (Hne : named_urls statusData <> []).
  { rewrite Hurls. now destruct done. }
  destruct (downloadImage_loop_entry args n n0 f f0 statusData targetDir
              customFilename Hv Hres Hget Hs Hread Hne Hdir)
    as [pre [Hp1 [Hp2 [Hp3 Hrun]]]].
  fold task_id d in Hrun.
  destruct (downloadLoop_after_saving task_id d customFilename done
              0 [] n0 f0 n1 f1 (url :: rest) Hdone)
    as [t [Ht1 [Ht2 [Ht3 Hloop]]]].
  subst out. rewrite Hrun, Hurls.
  unfold try_catch. rewrite framed_downloadAll.
  split.
  - intros e Hfetch.
    assert (Hall :
      downloadAll task_id d customFilename (done ++ url :: rest)
                  (mkSt n0 f0 [])
      = (Throw e, mkSt n2 f1 (t ++ [EvAxiosGet url]))).
    { unfold downloadAll, bind. rewrite Hloop. cbn [downloadLoop].
      unfold bind, do_axios_get, rebase. cbn [net fs trace app].
      rewrite Hfetch. reflexivity. }
    rewrite Hall. unfold rebase. cbn [fst snd net fs trace].
    rewrite api_error_handler_run. cbn [fst snd net fs trace].
    rewrite !fetched_urls_app, !write_paths_app, !no_fs_failure_app,
            Hp1, Hp2, Hp3, Ht1, Ht2, Ht3.
    cbn. rewrite app_nil_r. repeat split; reflexivity.
  - intros data msg Hfetch Hwrite.
    assert (Hall :
      downloadAll task_id d customFilename (done ++ url :: rest)
                  (mkSt n0 f0 [])
      = (Throw (SystemError msg),
         mkSt n2 f1
           (t ++ [EvAxiosGet url;
                  EvWriteFile (savePath (List.length done)) data false]))).
    { unfold downloadAll, bind. rewrite Hloop. cbn [downloadLoop].
      unfold bind, do_axios_get, do_writeFile, emit, rebase.
      cbn [net fs trace app Nat.add].
      rewrite Hfetch. cbn [net fs trace app]. fold (savePath (List.length done)).
      rewrite Hwrite. reflexivity. }
    rewrite Hall. unfold rebase. cbn [fst snd net fs trace].
    rewrite api_error_handler_run. cbn [isAxiosError fst snd net fs trace].
    rewrite !fetched_urls_app, !write_paths_app, Hp1, Hp2, Ht1, Ht2.
    cbn [fetched_urls write_paths flat_map app].
    split; [reflexivity|]. split; [reflexivity|]. split; [reflexivity|].
    split; [reflexivity|].
    split.
    { rewrite seq_S, map_app. reflexivity. }
    exists (pre ++ t ++ [EvAxiosGet url])%list. split.
    + now rewrite <- !app_assoc.
    + rewrite !no_fs_failure_app, Hp3, Ht3. reflexivity.
Qed.

(** X19. [downloadImage] saves every artifact when nothing fails: if the
    task has succeeded, its payload names at least one URL, the directory is
    there or is created, and every artifact can be fetched and written, then
    the call returns the result that is not flagged, with one [downloads]
    entry per URL, after fetching every URL in order and writing artifact
    [i] to [path.join] of the resolved directory and its file name. *)
Theorem download_saves_every_artifact
    (args statusData : jsval) (n n0 n1 : N) (f f0 f1 : F)
    (targetDir : string) (customFilename : option string) :
  let task_id := str_of (field args "task_id") in
  let d := absoluteTargetDir_of (baseDir_of cfg args) targetDir in
  let imageUrls := named_urls statusData in
  let out := run (downloadImage cfg args) n f in
  isValidTaskIdArgs args = true ->
  resolveTarget cfg args = inr (targetDir, customFilename) ->
  apiClient_get n (status_url args) = (inl statusData, n0) ->
  is_string (field (field statusData "output") "task_status") "SUCCEEDED"
    = true ->
  forallb readable (items_of (field (field statusData "output") "results"))
    = true ->
  imageUrls <> [] ->
  with_directory f d = Some f0 ->
  after_saving task_id d customFilename 0 imageUrls n0 f0 = Some (n1, f1) ->
  fst out
  = Ret (mkResult
           (JSON_stringify2
              (JObj [("message", JStr "Image download completed");
                     ("task_id", JStr task_id);
                     ("downloads",
                      JArr (download_entries task_id d customFilename 0
                                             imageUrls))]))
           false)
  /\ net (snd out) = n1 /\ fs (snd out) = f1
  /\ fetched_urls (trace (snd out)) = imageUrls
  /\ write_paths (trace (snd out))
     = map (fun i => path.join d (filename_of task_id customFilename i))
           (seq 0 (List.length imageUrls))
  /\ no_fs_failure (trace (snd out)) = true.
Proof.
  intros task_id d imageUrls out Hv Hres Hget Hs Hread Hne Hdir Hall.
  destruct (downloadImage_loop_entry args n n0 f f0 statusData targetDir
              customFilename Hv Hres Hget Hs Hread Hne Hdir)
    as [pre [Hp1 [Hp2 [Hp3 Hrun]]]].
  fold task_id d imageUrls in Hrun.
  destruct (downloadLoop_after_saving task_id d customFilename imageUrls
              0 [] n0 f0 n1 f1 [] Hall)
    as [t [Ht1 [Ht2 [Ht3 Hloop]]]].
  rewrite app_nil_r in Hloop.
  assert (Hdl :
    downloadAll task_id d customFilename imageUrls (mkSt n0 f0 [])
    = (Ret (mkResult
              (JSON_stringify2
                 (JObj [("message", JStr "Image download completed");
                        ("task_id", JStr task_id);
                        ("downloads",
                         JArr (download_entries task_id d customFilename 0
                                                imageUrls))]))
              false),
       mkSt n1 f1 t)).
  { unfold downloadAll, bind. rewrite Hloop. cbn [downloadLoop].
    unfold rebase, ret. cbn [fst snd net fs trace app].
    now rewrite app_nil_r. }
  subst out. rewrite Hrun.
  unfold try_catch. rewrite framed_downloadAll, Hdl.
  unfold rebase. cbn [fst snd net fs trace].
  rewrite !fetched_urls_app, !write_paths_app, !no_fs_failure_app,
          Hp1, Hp2, Hp3, Ht1, Ht2, Ht3.
  repeat split; reflexivity.
Qed.


(** ** Dispatch *)

Lemma framed_saveImages args imageUrls :
  framed (saveImages cfg args imageUrls).
Proof.
  unfold saveImages. destruct (resolveTarget cfg args) as [early | [td cf]].
  - apply framed_ret.
  - apply framed_bind; [apply framed_ensureTargetDir|]. intros [early | d].
    + apply framed_ret.
    + apply framed_downloadAll.
Qed.

Lemma loop_events_no_request (t : list event) :
  forallb loop_event t = true -> existsb is_api_request t = false.
Proof.
  induction t as [|e t IH]; [reflexivity|].
  cbn. intros H. apply andb_true_iff in H as [He Ht].
  rewrite (IH Ht). now destruct e.
Qed.

Lemma downloadImage_trace_head args n f :
  isValidTaskIdArgs args = true ->
  exists rest,
    trace (snd (run (downloadImage cfg args) n f))
    = EvApiGet (status_url args) :: rest.
Proof.
  intros Hv. rewrite downloadImage_valid by exact Hv.
  rewrite try_catch_api_state. unfold bind.
  pose proof (fetchImageUrls_state (str_of (field args "task_id"))
                (mkSt n f [])) as Hst.
  destruct (fetchImageUrls _ (mkSt n f [])) as [[[early | urls] | e] s1];
    cbn [snd net fs trace app] in Hst; subst s1.
  - now exists [].
  - rewrite framed_saveImages. unfold rebase. cbn [snd trace app].
    eexists. reflexivity.
  - now exists [].
Qed.

(** An accepted [downloadImage] call queries the status first, and makes no
    other request to the remote API. *)
Lemma downloadImage_requests args n f :
  isValidTaskIdArgs args = true ->
  exists rest,
    trace (snd (run (downloadImage cfg args) n f))
    = EvApiGet (status_url args) :: rest
    /\ existsb is_api_request rest = false.
Proof.
  intros Hv. destruct (downloadImage_trace_head args n f Hv) as [rest Hhead].
  exists rest. split; [exact Hhead|].
  destruct (downloadImage_shape cfg args n f)
    as [Ht Hf | u Ht Hf | u td cf msg Hres d Ht Hf Hex Hr
        | u td cf t found Hres d Ht Hex [urls [n1 [f1 Hloop]]]];
    rewrite Ht in Hhead.
  - discriminate.
  - injection Hhead as _ <-. reflexivity.
  - injection Hhead as _ <-. reflexivity.
  - cbn [app] in Hhead. injection Hhead as _ <-.
    cbn [existsb is_api_request orb]. rewrite existsb_app.
    rewrite (loop_events_no_request t)
      by (rewrite Hloop; apply downloadAll_events).
    now destruct found.
Qed.

Lemma generateImage_requests args n f :
  isValidGenerateImageArgs args = true ->
  exists body n',
    snd (run (generateImage cfg args) n f)
    = mkSt n' f [EvApiPost "/services/aigc/text2image/image-synthesis" body].
Proof.
  intros Hv. unfold run, generateImage. rewrite Hv. cbn [negb].
  unfold try_catch, bind, do_Math_random, do_apiClient_post, ret.
  destruct (is_undefined (field args "seed")); cbn [negb net fs trace].
  - destruct (Math_random n) as [k n0]. cbn [net fs trace app].
    match goal with
    | |- context [apiClient_post n0 ?u ?b] =>
        exists b; destruct (apiClient_post n0 u b) as [[data | e] n']
    end; exists n'; [reflexivity|].
    rewrite api_error_handler_run. reflexivity.
  - cbn [app].
    match goal with
    | |- context [apiClient_post n ?u ?b] =>
        exists b; destruct (apiClient_post n u b) as [[data | e] n']
    end; exists n'; [reflexivity|].
    rewrite api_error_handler_run. reflexivity.
Qed.

Lemma checkTaskStatus_requests args n f :
  isValidTaskIdArgs args = true ->
  exists n',
    snd (run (checkTaskStatus args) n f)
    = mkSt n' f [EvApiGet (status_url args)].
Proof.
  intros Hv. unfold run, checkTaskStatus. rewrite Hv. cbn [negb].
  unfold try_catch, bind, do_apiClient_get, status_url. cbn [net fs trace app].
  destruct (apiClient_get n _) as [[data | e] n']; exists n'; [reflexivity|].
  rewrite api_error_handler_run. reflexivity.
Qed.

Lemma missing_prompt_refused (args : jsval) :
  field args "prompt" = JUndefined -> isValidGenerateImageArgs args = false.
Proof.
  intros Hu. unfold isValidGenerateImageArgs. rewrite Hu.
  destruct (String.eqb (typeof args) "object"), (negb (is_null args));
    reflexivity.
Qed.

Lemma missing_task_id_refused (args : jsval) :
  field args "task_id" = JUndefined -> isValidTaskIdArgs args = false.
Proof.
  intros Hu. unfold isValidTaskIdArgs. rewrite Hu.
  destruct (String.eqb (typeof args) "object"), (negb (is_null args));
    reflexivity.
Qed.

Lemma callTool_cases (name : string) :
  (name = "generate_image" /\ callTool cfg name = generateImage cfg)
  \/ (name = "check_task_status" /\ callTool cfg name = checkTaskStatus)
  \/ (name = "download_image" /\ callTool cfg name = downloadImage cfg)
  \/ (~ In name listed_names
      /\ callTool cfg name
         = fun _ => throw (McpError MethodNotFound ("Unknown tool: " ++ name))).
Proof.
  unfold callTool.
  destruct (String.eqb name "generate_image") eqn:E1.
  { apply String.eqb_eq in E1. left. now split. }
  destruct (String.eqb name "check_task_status") eqn:E2.
  { apply String.eqb_eq in E2. right. left. now split. }
  destruct (String.eqb name "download_image") eqn:E3.
  { apply String.eqb_eq in E3. right. right. left. now split. }
  right. right. right. split; [|reflexivity].
  apply String.eqb_neq in E1, E2, E3.
  intros H. cbn in H. destruct H as [H | [H | [H | []]]]; congruence.
Qed.

(** X10. Every tool makes at most one request to the remote API, and makes
    it first: a call that is dispatched either touches nothing and raises an
    [McpError] (unknown tool, or arguments refused), or starts with its API
    request and never sends another; in particular nothing is read from or
    written to the file system before the remote service has answered, and
    [downloadImage] queries the status once only. *)
Theorem api_request_comes_first
    (name : string) (args : jsval) (n : N) (f : F) :
  let out := run (callTool cfg name args) n f in
  (snd out = mkSt n f []
   /\ exists code msg, fst out = Throw (McpError code msg))
  \/ (exists e rest,
        trace (snd out) = e :: rest
        /\ is_api_request e = true
        /\ existsb is_api_request rest = false).
Proof.
  cbv zeta.
  destruct (callTool_cases name) as [[_ ->] | [[_ ->] | [[_ ->] | [_ ->]]]].
  - destruct (isValidGenerateImageArgs args) eqn:Hv.
    + right. destruct (generateImage_requests args n f Hv) as [b [n' ->]].
      now exists (EvApiPost "/services/aigc/text2image/image-synthesis" b), [].
    + left. unfold run, generateImage. rewrite Hv. cbn. eauto.
  - destruct (isValidTaskIdArgs args) eqn:Hv.
    + right. destruct (checkTaskStatus_requests args n f Hv) as [n' ->].
      now exists (EvApiGet (status_url args)), [].
    + left. unfold run, checkTaskStatus. rewrite Hv. cbn. eauto.
  - destruct (isValidTaskIdArgs args) eqn:Hv.
    + right. destruct (downloadImage_requests args n f Hv) as [rest [-> Hr]].
      now exists (EvApiGet (status_url args)), rest.
    + left. unfold run, downloadImage. rewrite Hv. cbn. eauto.
  - left. cbn. eauto.
Qed.

(** X11. The tool list and the dispatcher agree: a name that [listTools]
    announces is dispatched to its tool and is never answered with
    [Unknown tool], every other name is refused with [MethodNotFound] and
    without any action, and a call that lacks a property which the announced
    schema requires is refused with [InvalidParams] and without any
    action. *)
Theorem listed_tools_are_dispatched
    (name : string) (args : jsval) (n : N) (f : F) :
  let out := run (callTool cfg name args) n f in
  let unknown :=
    (Throw (McpError MethodNotFound ("Unknown tool: " ++ name)),
     mkSt n f []) in
  (In name listed_names -> out <> unknown)
  /\ (~ In name listed_names -> out = unknown)
  /\ (forall k, In k (required_of name) -> field args k = JUndefined ->
                exists msg,
                  out = (Throw (McpError InvalidParams msg), mkSt n f [])).
Proof.
  cbv zeta.
  destruct (callTool_cases name) as [[-> ->] | [[-> ->] | [[-> ->] | [Hn ->]]]].
  - split; [|split].
    + intros _. destruct (isValidGenerateImageArgs args) eqn:Hv.
      * destruct (generateImage_requests args n f Hv) as [b [n' Hs]].
        intros E. rewrite (surjective_pairing (run _ n f)), Hs in E.
        discriminate E.
      * unfold run, generateImage. rewrite Hv. discriminate.
    + intros H. exfalso. apply H. cbn. tauto.
    + intros k Hk Hu. cbn in Hk. destruct Hk as [<- | []].
      unfold run, generateImage.
      rewrite (missing_prompt_refused _ Hu). eexists. reflexivity.
  - split; [|split].
    + intros _. destruct (isValidTaskIdArgs args) eqn:Hv.
      * destruct (checkTaskStatus_requests args n f Hv) as [n' Hs].
        intros E. rewrite (surjective_pairing (run _ n f)), Hs in E.
        discriminate E.
      * unfold run, checkTaskStatus. rewrite Hv. discriminate.
    + intros H. exfalso. apply H. cbn. tauto.
    + intros k Hk Hu. cbn in Hk. destruct Hk as [<- | []].
      unfold run, checkTaskStatus.
      rewrite (missing_task_id_refused _ Hu). eexists. reflexivity.
  - split; [|split].
    + intros _. destruct (isValidTaskIdArgs args) eqn:Hv.
      * destruct (downloadImage_trace_head args n f Hv) as [rest Hs].
        intros E. rewrite E in Hs. discriminate Hs.
      * unfold run, downloadImage. rewrite Hv. discriminate.
    + intros H. exfalso. apply H. cbn. tauto.
    + intros k Hk Hu. cbn in Hk. destruct Hk as [<- | []].
      unfold run, downloadImage.
      rewrite (missing_task_id_refused _ Hu). eexists. reflexivity.
  - split; [|split].
    + intros H. contradiction.
    + intros _. reflexivity.
    + intros k Hk. exfalso.
      assert (Hreq :
        required_of name
        = ((if String.eqb "generate_image" name then ["prompt"] else [])
           ++ (if String.eqb "check_task_status" name then ["task_id"] else [])
           ++ (if String.eqb "download_image" name then ["task_id"] else [])
           ++ [])%list) by reflexivity.
      rewrite Hreq in Hk.
      destruct (String.eqb "generate_image" name) eqn:E1;
        [apply String.eqb_eq in E1; apply Hn; rewrite <- E1; cbn; tauto|].
      destruct (String.eqb "check_task_status" name) eqn:E2;
        [apply String.eqb_eq in E2; apply Hn; rewrite <- E2; cbn; tauto|].
      destruct (String.eqb "download_image" name) eqn:E3;
        [apply String.eqb_eq in E3; apply Hn; rewrite <- E3; cbn; tauto|].
      destruct Hk.
Qed.

(** X12. The default that the announced schema declares for [size] is the
    one the code applies: when [size] is absent, the submission carries the
    schema's default. *)
Theorem declared_size_default_is_submitted (args : jsval) (n : N) (f : F) :
  isValidGenerateImageArgs args = true ->
  field args "size" = JUndefined ->
  exists body n',
    snd (run (generateImage cfg args) n f)
    = mkSt n' f [EvApiPost "/services/aigc/text2image/image-synthesis" body]
    /\ field (field body "parameters") "size" = declared_size_default.
Proof.
  intros Hv Hsize. unfold run, generateImage. rewrite Hv, Hsize. cbn [negb].
  unfold try_catch, bind, do_Math_random, do_apiClient_post, ret.
  destruct (is_undefined (field args "seed")); cbn [negb net fs trace].
  - destruct (Math_random n) as [k n0]. cbn [net fs trace app].
    match goal with
    | |- context [apiClient_post n0 ?u ?b] =>
        exists b; destruct (apiClient_post n0 u b) as [[data | e] n']
    end; exists n'; (split; [|reflexivity]); [reflexivity|].
    rewrite api_error_handler_run. reflexivity.
  - cbn [app].
    match goal with
    | |- context [apiClient_post n ?u ?b] =>
        exists b; destruct (apiClient_post n u b) as [[data | e] n']
    end; exists n'; (split; [|reflexivity]); [reflexivity|].
    rewrite api_error_handler_run. reflexivity.
Qed.

(** ** What [downloadImage] reads of its arguments *)

Lemma isValidTaskIdArgs_fields (args : jsval) :
  isValidTaskIdArgs args
  = String.eqb (typeof (field args "task_id")) "string"
    && (is_undefined (field args "save_path")
        || (String.eqb (typeof (field args "save_path")) "string"
            && (path.isAbsolute (str_of (field args "save_path"))
                || is_string (field args "save_path") "")))
    && (is_undefined (field args "base_dir")
        || String.eqb (typeof (field args "base_dir")) "string").
Proof. unfold isValidTaskIdArgs. destruct args; reflexivity. Qed.

Lemma downloadImage_congr (args1 args2 : jsval) (n : N) (f : F) :
  isValidTaskIdArgs args1 = isValidTaskIdArgs args2 ->
  field args1 "task_id" = field args2 "task_id" ->
  resolveTarget cfg args1 = resolveTarget cfg args2 ->
  baseDir_of cfg args1 = baseDir_of cfg args2 ->
  run (downloadImage cfg args1) n f = run (downloadImage cfg args2) n f.
Proof.
  intros Hv Htid Hres Hbase. unfold run, downloadImage. rewrite Hv.
  destruct (isValidTaskIdArgs args2); [|reflexivity]. cbn [negb].
  unfold saveImages. rewrite Htid, Hres, Hbase. reflexivity.
Qed.

(** X13. [downloadImage] reads three properties of its argument and nothing
    else: two calls that agree on [task_id], [save_path] and [base_dir] run
    alike, whatever other properties they carry. *)
Theorem download_reads_three_properties
    (args1 args2 : jsval) (n : N) (f : F) :
  field args1 "task_id" = field args2 "task_id" ->
  field args1 "save_path" = field args2 "save_path" ->
  field args1 "base_dir" = field args2 "base_dir" ->
  run (downloadImage cfg args1) n f = run (downloadImage cfg args2) n f.
Proof.
  intros Htid Hsp Hbd. apply downloadImage_congr.
  - rewrite !isValidTaskIdArgs_fields. now rewrite Htid, Hsp, Hbd.
  - exact Htid.
  - unfold resolveTarget. now rewrite Hsp.
  - unfold baseDir_of. now rewrite Hbd.
Qed.

(** X14. An empty string counts as no value: a call whose [save_path] and
    [base_dir] are each absent or the empty string runs exactly as the call
    that gives the [task_id] alone, and resolves to [SAVE_DIR], joined onto
    [WORK_DIR] when [SAVE_DIR] is relative. *)
Theorem empty_strings_count_as_absent
    (args : jsval) (task_id : string) (n : N) (f : F) :
  field args "task_id" = JStr task_id ->
  field args "save_path" = JUndefined \/ field args "save_path" = JStr "" ->
  field args "base_dir" = JUndefined \/ field args "base_dir" = JStr "" ->
  run (downloadImage cfg args) n f
  = run (downloadImage cfg (JObj [("task_id", JStr task_id)])) n f
  /\ resolvedDir cfg args
     = Some (absoluteTargetDir_of (WORK_DIR cfg) (SAVE_DIR cfg)).
Proof.
  intros Htid Hsp Hbd. split.
  - apply downloadImage_congr.
    + rewrite !isValidTaskIdArgs_fields. rewrite Htid.
      destruct Hsp as [-> | ->], Hbd as [-> | ->]; reflexivity.
    + rewrite Htid. reflexivity.
    + unfold resolveTarget. destruct Hsp as [-> | ->]; reflexivity.
    + unfold baseDir_of. destruct Hbd as [-> | ->]; reflexivity.
  - unfold resolvedDir, resolveTarget, baseDir_of.
    destruct Hsp as [-> | ->], Hbd as [-> | ->]; reflexivity.
Qed.

(** X15. The directory of an accepted call.  The resolution never ends in
    its own [Invalid save_path] result; a [save_path] that is given (not
    empty) resolves to its directory part when it names a file, and to
    itself otherwise, whatever [base_dir], [WORK_DIR] and [SAVE_DIR] are;
    without a [save_path] the directory is [SAVE_DIR], joined onto
    [base_dir] (or [WORK_DIR]) only when [SAVE_DIR] is relative. *)
Theorem resolved_directory_of_accepted_call (args : jsval) :
  isValidTaskIdArgs args = true ->
  (exists targetDir customFilename,
      resolveTarget cfg args = inr (targetDir, customFilename))
  /\ (forall save_path,
        field args "save_path" = JStr save_path -> save_path <> "" ->
        resolvedDir cfg args
        = Some (if names_file save_path then path.dirname save_path
                else save_path))
  /\ (truthy (field args "save_path") = false ->
      resolvedDir cfg args
      = Some (if path.isAbsolute (SAVE_DIR cfg) then SAVE_DIR cfg
              else path.join (baseDir_of cfg args) (SAVE_DIR cfg))).
Proof.
  intros Hv.
  assert (Habs : truthy (field args "save_path") = true ->
                 path.isAbsolute (str_of (field args "save_path")) = true).
  { apply isValidTaskIdArgs_refines_src_index_aux. exact Hv. }
  split; [|split].
  - unfold resolveTarget.
    destruct (truthy (field args "save_path")); [|eauto].
    rewrite (Habs eq_refl). cbn [negb]. destruct (_ && _); eauto.
  - intros sp Hsp Hne. unfold resolvedDir, resolveTarget.
    rewrite Hsp in Habs |- *. cbn [truthy str_of] in Habs |- *.
    replace (String.eqb sp "") with false in Habs |- *
      by (symmetry; now apply String.eqb_neq).
    cbn [negb] in Habs |- *. specialize (Habs eq_refl).
    rewrite Habs. cbn [negb]. fold (names_file sp).
    destruct (names_file sp).
    + unfold path.sep.
      rewrite (PathFacts.absolute_includes_slash _ Habs). cbn [negb andb].
      rewrite absoluteTargetDir_of_absolute
        by (now apply PathFacts.dirname_absolute).
      reflexivity.
    + now rewrite absoluteTargetDir_of_absolute.
  - intros Hf. unfold resolvedDir, resolveTarget. rewrite Hf. reflexivity.
Qed.

(** ** The variant of [src/index.ts] *)

Lemma SrcIndex_saveImages_run args imageUrls n f t :
  let d := SrcIndex.targetDir_of cfg args in
  let task_id := str_of (field args "task_id") in
  SrcIndex.saveImages cfg args imageUrls (mkSt n f t)
  = if fs_existsSync f d then
      downloadAll task_id d None imageUrls
        (mkSt n f (t ++ [EvExistsSync d true]))
    else
      match fs_mkdirSync f d with
      | inl f' =>
          downloadAll task_id d None imageUrls
            (mkSt n f' (t ++ [EvExistsSync d false; EvMkdirSync d true]))
      | inr msg =>
          (Throw (SystemError msg),
           mkSt n f (t ++ [EvExistsSync d false; EvMkdirSync d false]))
      end.
Proof.
  cbv zeta. unfold SrcIndex.saveImages, bind, do_existsSync, do_mkdirSync, emit.
  cbn [net fs trace].
  destruct (fs_existsSync f (SrcIndex.targetDir_of cfg args));
    cbn [negb net fs trace].
  - reflexivity.
  - destruct (fs_mkdirSync f (SrcIndex.targetDir_of cfg args));
      cbn [net fs trace]; rewrite <- ?app_assoc; reflexivity.
Qed.

(** What a run of the [downloadImage] of [src/index.ts] leaves in the
    trace. *)
Lemma SrcIndex_trace args n f :
  let d := SrcIndex.targetDir_of cfg args in
  let t := trace (snd (run (SrcIndex.downloadImage cfg args) n f)) in
  t = []
  \/ (exists u, t = [EvApiGet u])
  \/ (exists u, t = [EvApiGet u; EvExistsSync d false; EvMkdirSync d false])
  \/ (exists u found imageUrls n1 f1,
        t = ([EvApiGet u; EvExistsSync d found]
             ++ (if found then [] else [EvMkdirSync d true])
             ++ trace (snd (downloadAll (str_of (field args "task_id")) d None
                                        imageUrls (mkSt n1 f1 []))))%list).
Proof.
  cbv zeta. unfold run, SrcIndex.downloadImage.
  destruct (SrcIndex.isValidTaskIdArgs args); cbn [negb]; [|now left].
  rewrite try_catch_api_state. unfold bind.
  set (task_id := str_of (field args "task_id")).
  pose proof (fetchImageUrls_state task_id (mkSt n f [])) as Hst.
  destruct (fetchImageUrls task_id (mkSt n f []))
    as [[[early | urls] | e] s1]; cbn [snd net fs trace app] in Hst; subst s1.
  - right. left. eexists. reflexivity.
  - rewrite SrcIndex_saveImages_run. fold task_id.
    set (d := SrcIndex.targetDir_of cfg args).
    destruct (fs_existsSync f d).
    + right. right. right. rewrite framed_downloadAll.
      eexists _, true, urls, _, f. reflexivity.
    + destruct (fs_mkdirSync f d) as [f' | msg].
      * right. right. right. rewrite framed_downloadAll.
        eexists _, false, urls, _, f'. reflexivity.
      * right. right. left. eexists. reflexivity.
  - right. left. eexists. reflexivity.
Qed.

(** X16. In [src/index.ts] too, the directory comes first: every artifact
    is fetched after [fs.existsSync] found the save directory or
    [fs.mkdirSync] created it, and once [fs.mkdirSync] has failed no artifact
    is fetched. *)
Theorem src_index_directory_before_fetch (args : jsval) (n : N) (f : F) :
  let d := SrcIndex.targetDir_of cfg args in
  let t := trace (snd (run (SrcIndex.downloadImage cfg args) n f)) in
  (forall pre url post,
      t = (pre ++ EvAxiosGet url :: post)%list ->
      In (EvExistsSync d true) pre \/ In (EvMkdirSync d true) pre)
  /\ (forall p, In (EvMkdirSync p false) t ->
                existsb is_artifact_fetch t = false).
Proof.
  cbv zeta.
  destruct (SrcIndex_trace args n f)
    as [Ht | [[u Ht] | [[u Ht] | [u [found [urls [n1 [f1 Ht]]]]]]]];
    rewrite Ht; clear Ht.
  - split; [intros pre url post E; now destruct pre | intros p []].
  - split.
    + intros pre url post E. destruct pre as [|? [|? ?]]; discriminate.
    + intros p [H | []]. discriminate.
  - split; [|reflexivity].
    intros pre url post E.
    assert (Hin : In (EvAxiosGet url) (pre ++ EvAxiosGet url :: post))
      by (apply in_or_app; right; now left).
    rewrite <- E in Hin. cbn in Hin.
    repeat (destruct Hin as [Hin | Hin]; [discriminate|]). destruct Hin.
  - set (t := trace (snd (downloadAll _ _ None urls (mkSt n1 f1 [])))).
    assert (Hev : forallb loop_event t = true) by apply downloadAll_events.
    split.
    + intros pre url post E. rewrite app_assoc in E. symmetry in E.
      apply split_past_prefix in E.
      * destruct E as [pre' ->].
        destruct found; [left | right]; apply in_or_app; left; cbn; tauto.
      * intros Hin. apply in_app_or in Hin. cbn in Hin.
        destruct found; cbn in Hin;
          repeat (destruct Hin as [Hin | Hin]; try discriminate);
          try contradiction.
    + intros p Hin. exfalso.
      apply in_app_or in Hin. destruct Hin as [Hin | Hin].
      { cbn in Hin.
        repeat (destruct Hin as [Hin | Hin]; [discriminate|]). destruct Hin. }
      apply in_app_or in Hin. destruct Hin as [Hin | Hin].
      { destruct found; cbn in Hin; [destruct Hin|].
        destruct Hin as [Hin | []]. discriminate. }
      apply (loop_events_only _ _ Hev) in Hin. discriminate.
Qed.

(** X17. In [src/index.ts] a [save_path] is a directory, whatever it looks
    like: the files of a run are written, in order, to [path.join] of the
    [save_path] as it is given (of [SAVE_DIR] when it is absent or empty) and
    the default name [{task_id}_{i}.png]; no file gets another name. *)
Theorem src_index_save_path_is_a_directory (args : jsval) (n : N) (f : F) :
  (forall save_path,
      field args "save_path" = JStr save_path -> save_path <> "" ->
      SrcIndex.targetDir_of cfg args = save_path)
  /\ (truthy (field args "save_path") = false ->
      SrcIndex.targetDir_of cfg args = SAVE_DIR cfg)
  /\ exists k,
       write_paths (trace (snd (run (SrcIndex.downloadImage cfg args) n f)))
       = map (fun i =>
                path.join (SrcIndex.targetDir_of cfg args)
                          (default_name (str_of (field args "task_id")) i))
             (seq 0 k).
Proof.
  split; [|split].
  - intros sp Hsp Hne. unfold SrcIndex.targetDir_of, js_or. rewrite Hsp.
    cbn [truthy].
    replace (String.eqb sp "") with false
      by (symmetry; now apply String.eqb_neq).
    reflexivity.
  - intros Hf. unfold SrcIndex.targetDir_of, js_or. now rewrite Hf.
  - destruct (SrcIndex_trace args n f)
      as [Ht | [[u Ht] | [[u Ht] | [u [found [urls [n1 [f1 Ht]]]]]]]];
      rewrite Ht; clear Ht; try (exists 0%nat; reflexivity).
    rewrite !write_paths_app.
    replace (write_paths (if found then []
                          else [EvMkdirSync (SrcIndex.targetDir_of cfg args)
                                            true]))
      with (@nil string) by (now destruct found).
    cbn [write_paths flat_map app]. rewrite downloadAll_trace.
    destruct (downloadLoop_write_paths (str_of (field args "task_id"))
                (SrcIndex.targetDir_of cfg args) None urls 0 [] n1 f1)
      as [k [_ Hw]].
    exists k. exact Hw.
Qed.

End ExtraFacts.

(** ** Configuration *)

Lemma normalize_not_empty (p : string) : path.normalize p <> "".
Proof.
  unfold path.normalize.
  destruct (JsString.len p =? 0); [discriminate|].
  set (q := path.normalizeString p _).
  destruct (JsString.len q =? 0) eqn:Eq.
  - destruct (JsString.code_is (JsString.charCodeAt p 0) _);
      [discriminate|].
    destruct (JsString.code_is _ _); discriminate.
  - assert (Hq : q <> "") by (intros E; rewrite E in Eq; discriminate).
    destruct (JsString.code_is (JsString.charCodeAt p 0) _);
      [discriminate|].
    destruct (JsString.code_is _ _); [|exact Hq].
    destruct q; [congruence | discriminate].
Qed.

Lemma normalize_absolute (p : string) :
  path.isAbsolute p = true -> path.isAbsolute (path.normalize p) = true.
Proof.
  intros H. destruct (PathFacts.isAbsolute_inv _ H) as [s ->].
  unfold path.normalize.
  replace (JsString.len (String "/" s) =? 0) with false by reflexivity.
  change (JsString.code_is (JsString.charCodeAt (String "/" s) 0)
            path.CHAR_FORWARD_SLASH) with true.
  cbv zeta. destruct (JsString.len _ =? 0); [reflexivity|].
  cbn [append]. apply PathFacts.isAbsolute_cons.
Qed.

Lemma join_all_not_empty (parts : list string) : join_all parts <> "".
Proof.
  unfold join_all. destruct (fold_left _ parts None); [|discriminate].
  apply normalize_not_empty.
Qed.

Lemma env_or_not_empty (v : option string) (fallback : string) :
  fallback <> "" -> env_or v fallback <> "".
Proof.
  intros H. unfold env_or. destruct v as [s|]; [|exact H].
  destruct (String.eqb s "") eqn:E; [exact H|]. now apply String.eqb_neq.
Qed.

Lemma env_or_set (s fallback : string) :
  s <> "" -> env_or (Some s) fallback = s.
Proof.
  intros H. unfold env_or.
  now replace (String.eqb s "") with false
    by (symmetry; now apply String.eqb_neq).
Qed.

Lemma env_or_unset (v : option string) (fallback : string) :
  v = None \/ v = Some "" -> env_or v fallback = fallback.
Proof. intros [-> | ->]; reflexivity. Qed.

Lemma join_all_home (homedir : string) :
  homedir <> "" ->
  join_all [homedir; "Desktop"; "flux-images"]
  = path.normalize (homedir ++ "/Desktop/flux-images").
Proof.
  intros H. unfold join_all. cbn [fold_left].
  replace (0 <? JsString.len homedir) with true
    by (destruct homedir; [congruence | reflexivity]).
  change (0 <? JsString.len "Desktop") with true.
  change (0 <? JsString.len "flux-images") with true. cbv iota.
  f_equal. induction homedir as [|c h IH]; [congruence|].
  destruct h as [|c' h]; [reflexivity|].
  cbn [append] in *. f_equal. apply IH. discriminate.
Qed.

(** X18. The configuration never holds an empty credential, model name or
    save directory, and no empty work directory unless the process has none:
    a variable that is set to a non-empty value is taken as it is, and one
    that is unset or empty gets its default, which is [example-key] for the
    credential, [flux-merged] for the model, the current directory for the
    work directory and [path.join(homedir, "Desktop", "flux-images")] for
    the save directory, the normal form of [homedir/Desktop/flux-images].
    The default save directory is an absolute path as soon as the home
    directory is. *)
Theorem loadConfig_defaults
    (env : string -> option string) (homedir cwd : string) :
  let c := loadConfig env homedir cwd in
  let unset := fun name => env name = None \/ env name = Some "" in
  API_KEY c <> "" /\ MODEL_NAME c <> "" /\ SAVE_DIR c <> ""
  /\ (cwd <> "" -> WORK_DIR c <> "")
  /\ (forall v, v <> "" ->
        (env "DASHSCOPE_API_KEY" = Some v -> API_KEY c = v)
        /\ (env "SAVE_DIR" = Some v -> SAVE_DIR c = v)
        /\ (env "MODEL_NAME" = Some v -> MODEL_NAME c = v)
        /\ (env "WORK_DIR" = Some v -> WORK_DIR c = v))
  /\ (unset "SAVE_DIR" ->
      path.isAbsolute homedir = true ->
      path.isAbsolute (SAVE_DIR c) = true)
  /\ (unset "DASHSCOPE_API_KEY" -> API_KEY c = "example-key")
  /\ (unset "MODEL_NAME" -> MODEL_NAME c = "flux-merged")
  /\ (unset "WORK_DIR" -> WORK_DIR c = cwd)
  /\ (unset "SAVE_DIR" ->
      SAVE_DIR c = join_all [homedir; "Desktop"; "flux-images"]
      /\ (homedir <> "" ->
          SAVE_DIR c = path.normalize (homedir ++ "/Desktop/flux-images"))).
Proof.
  cbv zeta. unfold loadConfig. cbn [API_KEY MODEL_NAME SAVE_DIR WORK_DIR].
  split; [apply env_or_not_empty; discriminate|].
  split; [apply env_or_not_empty; discriminate|].
  split; [apply env_or_not_empty; apply join_all_not_empty|].
  split; [apply env_or_not_empty|].
  split.
  { intros v Hv. repeat split; intros ->; now apply env_or_set. }
  split.
  { intros Hunset Habs. rewrite (env_or_unset _ _ Hunset).
    rewrite join_all_home
      by (destruct (PathFacts.isAbsolute_inv _ Habs) as [h ->]; discriminate).
    apply normalize_absolute.
    destruct (PathFacts.isAbsolute_inv _ Habs) as [h ->]. reflexivity. }
  split; [apply env_or_unset|].
  split; [apply env_or_unset|].
  split; [apply env_or_unset|].
  intros Hunset. rewrite (env_or_unset _ _ Hunset).
  split; [reflexivity | apply join_all_home].
Qed.

(** ** The further properties on example calls *)

Module ExtraChecks.
Import Demo Examples Examples2.

Lemma isValidTaskIdArgs_accepts_witness :
  (exists fields, args_pic = JObj fields)
  /\ (exists task_id, field args_pic "task_id" = JStr task_id)
  /\ (field args_pic "save_path" = JUndefined
      \/ field args_pic "save_path" = JStr ""
      \/ exists rest, field args_pic "save_path" = JStr (String "/" rest))
  /\ (field args_pic "base_dir" = JUndefined
      \/ exists base_dir, field args_pic "base_dir" = JStr base_dir).
Proof. apply (proj1 (isValidTaskIdArgs_accepts args_pic)). reflexivity. Defined.

Lemma isValidGenerateImageArgs_accepts_witness :
  isValidGenerateImageArgs gen_zero_steps = true.
Proof.
  apply (proj2 (isValidGenerateImageArgs_accepts gen_zero_steps)).
  split; [now exists [("prompt", JStr "a cat"); ("seed", JNum (num_of_Z 7));
                      ("steps", JNum (num_of_Z 0))]|].
  split; [now exists "a cat"|].
  split; [now left|].
  split; right; eexists; reflexivity.
Defined.

Lemma isValidTaskIdArgs_refines_src_index_witness :
  SrcIndex.isValidTaskIdArgs args_status_relative = true
  /\ isValidTaskIdArgs args_status_relative = false
  /\ SrcIndex.isValidTaskIdArgs args_pic = true.
Proof.
  split; [reflexivity|]. split; [reflexivity|].
  exact (proj1 (proj1 (isValidTaskIdArgs_refines_src_index args_pic)
                  eq_refl)).
Defined.

Lemma check_task_status_outcome_witness :
  run (checkTaskStatus args_status_relative) net_two disk
  = (Throw (McpError InvalidParams "Invalid task ID parameter"),
     mkSt net_two disk [])
  /\ run (SrcIndex.checkTaskStatus args_status_relative) net_two disk
     = (Ret (mkResult
               (JSON_stringify2
                  (status "SUCCEEDED" ["http://img/0"; "http://img/1"]))
               false),
        mkSt net_two disk [EvApiGet "/tasks/t1"]).
Proof.
  exact (check_task_status_outcome args_status_relative net_two disk).
Defined.

Lemma check_task_status_refuses_relative_save_path_witness :
  run (checkTaskStatus args_status_relative) net_two disk
  = (Throw (McpError InvalidParams "Invalid task ID parameter"),
     mkSt net_two disk []).
Proof.
  apply (check_task_status_refuses_relative_save_path args_status_relative
           "pictures" net_two disk);
    [reflexivity | discriminate | reflexivity].
Defined.

Lemma generate_image_outcome_witness :
  exists text,
    fst (run (generateImage cfg gen_prompt_only) net_unauthorized disk)
    = Ret (mkResult text true).
Proof.
  destruct (generate_image_outcome cfg gen_prompt_only net_unauthorized disk
              eq_refl) as [body [_ [_ [Herr _]]]].
  eexists. apply (Herr _ eq_refl eq_refl).
Defined.

Lemma download_status_query_fault_witness :
  run (downloadImage cfg args_pic) net_unreachable disk
  = (Ret (mkResult "API request error: connect ECONNREFUSED" true),
     mkSt net_unreachable disk [EvApiGet "/tasks/t1"])
  /\ run (downloadImage cfg args_pic) net_broken disk
     = (Throw (TypeError "Invalid URL"),
        mkSt net_broken disk [EvApiGet "/tasks/t1"]).
Proof.
  split.
  - refine (proj1 (download_status_query_fault cfg args_pic net_unreachable
                     net_unreachable disk
                     (AxiosError JUndefined "connect ECONNREFUSED") _) _);
      reflexivity.
  - refine (proj1 (download_status_query_fault cfg args_pic net_broken
                     net_broken disk (TypeError "Invalid URL") _) _);
      reflexivity.
Defined.

(** The second of three artifacts cannot be fetched: the first file stays,
    the third artifact is not asked for, and the call ends in the
    error-flagged result. *)
Lemma download_stops_at_first_failure_witness :
  let out := run (downloadImage cfg args_dir) net_second_missing disk in
  fst out
  = Ret (mkResult "API request error: Request failed with status code 404"
                  true)
  /\ fetched_urls (trace (snd out))
     = [JStr "http://img/0"; JStr "http://img/1"]
  /\ write_paths (trace (snd out)) = ["/tmp/out/t1_0.png"].
Proof.
  pose proof
    (download_stops_at_first_failure cfg args_dir
       (status "SUCCEEDED" ["http://img/0"; "http://img/1"; "http://img/2"])
       net_second_missing net_second_missing net_second_missing
       net_second_missing disk disk
       (mkFS [("/tmp/out/t1_0.png", File "PNG"); ("/tmp", Dir);
              ("/tmp/out", Dir)] true)
       "/tmp/out" None [JStr "http://img/0"] [JStr "http://img/2"]
       (JStr "http://img/1")) as H.
  cbv zeta in H.
  destruct H as [Hfetch _]; try reflexivity.
  destruct (Hfetch (AxiosError JUndefined
                      "Request failed with status code 404"))
    as [Hr [_ [_ [Hu [Hw _]]]]]; [reflexivity|].
  cbv zeta. split; [exact Hr|]. split; [exact Hu | exact Hw].
Defined.


Lemma download_saves_every_artifact_witness :
  let out := run (downloadImage cfg args_pic) net_two disk in
  (exists text, fst out = Ret (mkResult text false))
  /\ fetched_urls (trace (snd out))
     = [JStr "http://img/0"; JStr "http://img/1"]
  /\ write_paths (trace (snd out))
     = ["/tmp/out/pic.png"; "/tmp/out/t1_1.png"]
  /\ Demo.find "/tmp/out/t1_1.png" (entries (fs (snd out)))
     = Some (File "PNG").
Proof.
  pose proof
    (download_saves_every_artifact cfg args_pic
       (status "SUCCEEDED" ["http://img/0"; "http://img/1"])
       net_two net_two net_two disk disk
       (mkFS [("/tmp/out/t1_1.png", File "PNG");
              ("/tmp/out/pic.png", File "PNG"); ("/tmp", Dir);
              ("/tmp/out", Dir)] true)
       "/tmp/out" (Some "pic.png")) as H.
  cbv zeta in H.
  specialize (H eq_refl eq_refl eq_refl eq_refl eq_refl).
  assert (Hne : named_urls
                  (status "SUCCEEDED" ["http://img/0"; "http://img/1"])
                <> []) by discriminate.
  specialize (H Hne eq_refl eq_refl).
  destruct H as [Hr [_ [Hf [Hu [Hw _]]]]].
  cbv zeta. rewrite Hf.
  split; [eexists; exact Hr|].
  split; [exact Hu|]. split; [exact Hw | reflexivity].
Defined.

Lemma listed_tools_are_dispatched_witness :
  run (callTool cfg "resize_image" args_status) net_two disk
  = (Throw (McpError MethodNotFound "Unknown tool: resize_image"),
     mkSt net_two disk [])
  /\ exists msg,
       run (callTool cfg "generate_image" args_status) net_two disk
       = (Throw (McpError InvalidParams msg), mkSt net_two disk []).
Proof.
  destruct (listed_tools_are_dispatched cfg "resize_image" args_status
              net_two disk) as [_ [Hunknown _]].
  destruct (listed_tools_are_dispatched cfg "generate_image" args_status
              net_two disk) as [_ [_ Hreq]].
  split.
  - apply Hunknown. vm_compute. intros [H | [H | [H | []]]]; discriminate H.
  - apply (Hreq "prompt"); [vm_compute; now left | reflexivity].
Defined.

Lemma declared_size_default_is_submitted_witness :
  exists body n',
    snd (run (generateImage cfg gen_prompt_only) net_random_max disk)
    = mkSt n' disk
        [EvApiPost "/services/aigc/text2image/image-synthesis" body]
    /\ field (field body "parameters") "size" = JStr "1024*1024".
Proof.
  destruct (declared_size_default_is_submitted cfg gen_prompt_only
              net_random_max disk eq_refl eq_refl) as [body [n' [Hs Hd]]].
  exists body, n'. split; [exact Hs | exact Hd].
Defined.

Lemma download_reads_three_properties_witness :
  run (downloadImage cfg args_pic) net_two disk
  = run (downloadImage cfg args_pic_noise) net_two disk.
Proof.
  apply (download_reads_three_properties cfg args_pic args_pic_noise);
    reflexivity.
Defined.

Lemma empty_strings_count_as_absent_witness :
  run (downloadImage cfg args_empty_strings) net_two disk
  = run (downloadImage cfg args_status) net_two disk
  /\ resolvedDir cfg args_empty_strings = Some "/home/u/Desktop/flux-images".
Proof.
  apply (empty_strings_count_as_absent cfg args_empty_strings "t1" net_two
           disk);
    [reflexivity | now right | now right].
Defined.

Lemma resolved_directory_of_accepted_call_witness :
  resolvedDir cfg args_pic = Some "/tmp/out"
  /\ resolvedDir cfg args_dir = Some "/tmp/out"
  /\ resolvedDir cfg args_status = Some "/home/u/Desktop/flux-images".
Proof.
  destruct (resolved_directory_of_accepted_call cfg args_pic eq_refl)
    as [_ [H1 _]].
  destruct (resolved_directory_of_accepted_call cfg args_dir eq_refl)
    as [_ [H2 _]].
  destruct (resolved_directory_of_accepted_call cfg args_status eq_refl)
    as [_ [_ H3]].
  split; [|split].
  - apply (H1 "/tmp/out/pic.png"); [reflexivity | discriminate].
  - apply (H2 "/tmp/out"); [reflexivity | discriminate].
  - apply H3. reflexivity.
Defined.

Lemma src_index_directory_before_fetch_witness :
  existsb is_artifact_fetch
    (trace (snd (run (SrcIndex.downloadImage cfg args_new_dir) net_two
                     disk_readonly)))
  = false.
Proof.
  apply (proj2 (src_index_directory_before_fetch cfg args_new_dir net_two
                  disk_readonly) "/tmp/new").
  vm_compute. do 2 right. left. reflexivity.
Defined.

Lemma src_index_save_path_is_a_directory_witness :
  SrcIndex.targetDir_of cfg args_pic = "/tmp/out/pic.png"
  /\ trace (snd (run (SrcIndex.downloadImage cfg args_pic) net_two disk))
     = [EvApiGet "/tasks/t1";
        EvExistsSync "/tmp/out/pic.png" false;
        EvMkdirSync "/tmp/out/pic.png" true;
        EvAxiosGet (JStr "http://img/0");
        EvWriteFile "/tmp/out/pic.png/t1_0.png" "PNG" true;
        EvAxiosGet (JStr "http://img/1");
        EvWriteFile "/tmp/out/pic.png/t1_1.png" "PNG" true].
Proof.
  destruct (src_index_save_path_is_a_directory cfg args_pic net_two disk)
    as [H _].
  split; [|reflexivity].
  apply (H "/tmp/out/pic.png"); [reflexivity | discriminate].
Defined.

Lemma loadConfig_defaults_witness :
  SAVE_DIR (loadConfig env_save_dir "/home/u" "/home/u/work") = "/data/images"
  /\ path.isAbsolute (SAVE_DIR (loadConfig env_empty "/home/u" "/home/u/work"))
     = true
  /\ API_KEY (loadConfig env_save_dir "/home/u" "/home/u/work")
     = "example-key"
  /\ SAVE_DIR (loadConfig env_empty "/home/u" "/home/u/work")
     = "/home/u/Desktop/flux-images"
  /\ loadConfig env_empty "/home/u" "/home/u/work" = cfg.
Proof.
  destruct (loadConfig_defaults env_save_dir "/home/u" "/home/u/work")
    as [_ [_ [_ [_ [Hset [_ [Hkey _]]]]]]].
  destruct (loadConfig_defaults env_empty "/home/u" "/home/u/work")
    as [_ [_ [_ [_ [_ [Habs [_ [_ [_ Hdir]]]]]]]]].
  split; [|split; [|split; [|split]]].
  - apply (Hset "/data/images"); [discriminate | reflexivity].
  - apply Habs; [now left | reflexivity].
  - apply Hkey. now left.
  - destruct (Hdir (or_introl eq_refl)) as [_ Hnorm].
    rewrite Hnorm by discriminate. reflexivity.
  - reflexivity.
Defined.

End ExtraChecks.
